(** * Product Spotlight block

    A shallow embedding of [blocks/product-spotlight/product-spotlight.js]:
    the product fetcher [fetchProductData], the view builders
    [createProductImage] and [createProductInfo] with the click handler
    of its add-to-cart button, and the orchestrator [decorate], followed
    by the properties of the fetch-and-render pipeline.

    The program is JavaScript running against a DOM.  The embedding keeps
    - JSON data as the untyped values the code receives ([Js.JsVal]),
      with property reads, optional chaining, truthiness and string
      conversion as the language defines them;
    - exceptions as an explicit completion ([Js.Completion]);
    - the block element as a class token list plus child nodes, mutated
      by explicit state passing, and the calls that leave the program
      (label provider, network request, console, event bus) as a trace of
      effects ([Run.M]);
    - the collaborators that are not part of this file of the repository
      (label provider, config reader, endpoint configuration, transport,
      link builder) as fields of an environment record ([Env]).

    What the embedding takes for granted about the collaborators: the
    label provider resolves to a mapping, the config reader yields a flat
    mapping from keys to strings, and the calls to [getConfigValue],
    [rootLink], the two [render] capabilities, [events.emit] and the
    cart service return.
    One decoration is one sequential run: every [await] is taken at the
    point where its promise settles.  Strings are sequences of code
    units, one [ascii] each. *)

From Stdlib Require Import ZArith QArith Qround Qabs String Ascii List Bool Lia Lqa DecimalString.
From stdpp Require Import gmap strings.
Import ListNotations.

Open Scope string_scope.
Open Scope list_scope.
Open Scope Z_scope.

Set Warnings "-register-all".

(* ===================================================================== *)
(** * JavaScript values                                                   *)
(* ===================================================================== *)

Module Js.

(** A Number is kept by its exact mathematical value (every finite double
    is a rational); the two zeros are identified, which no operation of
    this program can tell apart. *)
Inductive Num : Type :=
| NFin (q : Q)
| NInf (negative : bool)
| NNaN.

(** The values [JSON.parse] produces, plus [undefined], which property
    reads produce.  An object is its own properties in source order; a
    later binding of a key overrides an earlier one. *)
Inductive JsVal : Type :=
| JUndefined
| JNull
| JBool (b : bool)
| JNum (n : Num)
| JStr (s : string)
| JArr (items : list JsVal)
| JObj (fields : list (string * JsVal)).

Inductive Exn : Type :=
| TypeError (msg : string)
| DOMException (name : string)
| HostError (reason : JsVal).

(** The completion of an expression or statement: a value, or a thrown
    exception. *)
Inductive Completion (A : Type) : Type :=
| Normal (a : A)
| Throw (e : Exn).
Arguments Normal {A} a.
Arguments Throw {A} e.

Definition cbind {A B} (c : Completion A) (k : A -> Completion B) : Completion B :=
  match c with
  | Normal a => k a
  | Throw e => Throw e
  end.

Declare Scope completion_scope.
Delimit Scope completion_scope with completion.
Notation "'let?' x ':=' c 'in' k" := (cbind c (fun x => k))
  (at level 10, x name, c at level 100, k at level 200) : completion_scope.

(** The two conversions between Numbers and text that need the binary
    floating-point format are left to the platform. [Number_toString_pos]
    prints a positive finite Number, [StringToNumber] reads a string as a
    Number. *)
Record Platform : Type := {
  Number_toString_pos : Q -> string;
  StringToNumber : string -> Num
}.

(** ** Truthiness, [||], property reads *)

Definition ToBoolean (v : JsVal) : bool :=
  match v with
  | JUndefined | JNull => false
  | JBool b => b
  | JNum (NFin q) => negb (Qeq_bool q 0)
  | JNum (NInf _) => true
  | JNum NNaN => false
  | JStr s => negb (String.eqb s "")
  | JArr _ | JObj _ => true
  end.

(** [a || b] *)
Definition js_or (a b : JsVal) : JsVal := if ToBoolean a then a else b.

Definition is_nullish (v : JsVal) : bool :=
  match v with
  | JUndefined | JNull => true
  | _ => false
  end.

(** Last binding of [k] in an object's property list. *)
Fixpoint assoc_last (fields : list (string * JsVal)) (k : string) : option JsVal :=
  match fields with
  | [] => None
  | (k', v) :: rest =>
      match assoc_last rest k with
      | Some w => Some w
      | None => if String.eqb k' k then Some v else None
      end
  end.

Definition has_own (fields : list (string * JsVal)) (k : string) : bool :=
  match assoc_last fields k with
  | Some _ => true
  | None => false
  end.

(** The decimal digits of a non-negative integer, most significant first:
    those of [n / 10] when there are any, then the digit [n mod 10].  The
    fuel is an upper bound on the number of digits. *)
Definition digit_char (d : Z) : ascii := ascii_of_N (48 + Z.to_N d).

Fixpoint decimal_digits (fuel : nat) (n : Z) : string :=
  match fuel with
  | O => ""
  | S fuel' =>
      (if n <? 10 then "" else decimal_digits fuel' (n / 10))
        +:+ String (digit_char (n mod 10)) ""
  end.

Definition decimal (n : Z) : string := decimal_digits (S (Z.to_nat (Z.log2 n))) n.

(** A property key that is a canonical array index. *)
Definition index_of_key (k : string) : option nat :=
  match NilZero.uint_of_string k with
  | Some u =>
      let n := Nat.of_uint u in
      if String.eqb (NilZero.string_of_uint (Nat.to_uint n)) k then Some n else None
  | None => None
  end.

(** Own properties of a value that is neither [undefined] nor [null].
    Properties inherited from the built-in prototypes are not modelled:
    no key this program reads ([data], [products], [0], [images], [url],
    [label], [name], [sku], [url_key], [price_range], [minimum_price],
    [final_price], [regular_price], [currency], [value],
    [short_description], [html], [media_gallery], [cs], [Global],
    [AddProductToCart], [ViewProduct]) is inherited by a JSON value. *)
Definition own_property (v : JsVal) (k : string) : JsVal :=
  match v with
  | JObj fields =>
      match assoc_last fields k with
      | Some w => w
      | None => JUndefined
      end
  | JArr items =>
      if String.eqb k "length" then JNum (NFin (inject_Z (Z.of_nat (List.length items))))
      else match index_of_key k with
           | Some i => nth i items JUndefined
           | None => JUndefined
           end
  | JStr s =>
      if String.eqb k "length" then JNum (NFin (inject_Z (Z.of_nat (String.length s))))
      else match index_of_key k with
           | Some i =>
               match String.get i s with
               | Some c => JStr (String c EmptyString)
               | None => JUndefined
               end
           | None => JUndefined
           end
  | _ => JUndefined
  end.

(** [v.k] and [v[k]]: reading a property of [undefined] or [null] throws. *)
Definition get (v : JsVal) (k : string) : Completion JsVal :=
  if is_nullish v
  then Throw (TypeError ("Cannot read properties of undefined or null (reading " +:+ k +:+ ")"))
  else Normal (own_property v k).

(** [v?.k] and [v?.[k]] *)
Definition get_opt (v : JsVal) (k : string) : JsVal :=
  if is_nullish v then JUndefined else own_property v k.

(** ** Conversion to text *)

Section WithPlatform.
Variable P : Platform.

(** Number::toString *)
Definition Number_toString (n : Num) : string :=
  match n with
  | NNaN => "NaN"
  | NInf false => "Infinity"
  | NInf true => "-Infinity"
  | NFin q =>
      if Qeq_bool q 0 then "0"
      else if Qle_bool 0 q then Number_toString_pos P q
      else "-" +:+ Number_toString_pos P (Qabs q)
  end.

(** ToString.  An array prints its elements joined by commas
    ([undefined] and [null] as nothing); an object prints through the
    inherited [toString] unless an own property of that name, which in
    JSON data is never callable, hides it. *)
Fixpoint ToString (v : JsVal) : Completion string :=
  match v with
  | JUndefined => Normal "undefined"
  | JNull => Normal "null"
  | JBool true => Normal "true"
  | JBool false => Normal "false"
  | JNum n => Normal (Number_toString n)
  | JStr s => Normal s
  | JArr items =>
      (fix join (l : list JsVal) : Completion string :=
         match l with
         | [] => Normal ""
         | x :: rest =>
             cbind (if is_nullish x then Normal "" else ToString x) (fun s =>
             match rest with
             | [] => Normal s
             | _ :: _ => cbind (join rest) (fun r => Normal (s +:+ "," +:+ r))
             end)
         end) items
  | JObj fields =>
      if has_own fields "toString"
      then Throw (TypeError "Cannot convert object to primitive value")
      else Normal "[object Object]"
  end.

(** ToPrimitive, the same for both hints on JSON data. *)
Definition ToPrimitive (v : JsVal) : Completion JsVal :=
  match v with
  | JArr _ | JObj _ => cbind (ToString v) (fun s => Normal (JStr s))
  | _ => Normal v
  end.

(** ToNumber of a primitive. *)
Definition ToNumber_prim (v : JsVal) : Num :=
  match v with
  | JUndefined => NNaN
  | JNull => NFin 0
  | JBool true => NFin 1
  | JBool false => NFin 0
  | JNum n => n
  | JStr s => StringToNumber P s
  | JArr _ | JObj _ => NNaN
  end.

Definition Num_ltb (x y : Num) : bool :=
  match x, y with
  | NNaN, _ | _, NNaN => false
  | NInf true, NInf true => false
  | NInf true, _ => true
  | _, NInf true => false
  | NInf false, _ => false
  | _, NInf false => true
  | NFin a, NFin b => negb (Qle_bool b a)
  end.

(** [a < b] *)
Definition js_lt (a b : JsVal) : Completion bool :=
  cbind (ToPrimitive a) (fun pa =>
  cbind (ToPrimitive b) (fun pb =>
  match pa, pb with
  | JStr sa, JStr sb => Normal (String.ltb sa sb)
  | _, _ => Normal (Num_ltb (ToNumber_prim pa) (ToNumber_prim pb))
  end)).

(** ** Number.prototype.toFixed *)

Fixpoint zeros (n : nat) : string :=
  match n with
  | O => ""
  | S n' => "0" +:+ zeros n'
  end.

(** The digits of a non-negative [x] below 10^21 rounded to [f]
    fraction digits: the integer [n] with [n / 10^f] nearest to [x], the
    larger one on a tie, printed with a point before its last [f]
    digits. *)
Definition fixed_digits (f : nat) (x : Q) : string :=
  let n := Qfloor (x * inject_Z (10 ^ Z.of_nat f) + (1 # 2)) in
  let m := decimal n in
  match f with
  | O => m
  | S _ =>
      let m := if (String.length m <=? f)%nat
               then zeros (S f - String.length m) +:+ m else m in
      let k := String.length m in
      substring 0 (k - f) m +:+ "." +:+ substring (k - f) f m
  end.

Definition Number_toFixed (x : Num) (f : nat) : string :=
  match x with
  | NFin q =>
      let s := if Qle_bool 0 q then "" else "-" in
      let a := Qabs q in
      if Qle_bool (inject_Z (10 ^ 21)) a
      then s +:+ Number_toString (NFin a)
      else s +:+ fixed_digits f a
  | _ => Number_toString x
  end.

(** [v.toFixed(f)]: only a Number has the method. *)
Definition call_toFixed (v : JsVal) (f : nat) : Completion string :=
  match v with
  | JNum n => Normal (Number_toFixed n f)
  | JUndefined | JNull =>
      Throw (TypeError "Cannot read properties of undefined or null (reading toFixed)")
  | _ => Throw (TypeError "toFixed is not a function")
  end.

End WithPlatform.

(** The elements of an array as properties under their indices. *)
Fixpoint indexed_from (i : nat) (l : list JsVal) : list (string * JsVal) :=
  match l with
  | [] => []
  | x :: rest => (NilZero.string_of_uint (Nat.to_uint i), x) :: indexed_from (S i) rest
  end.

Fixpoint code_units (s : string) : list JsVal :=
  match s with
  | EmptyString => []
  | String c rest => JStr (String c EmptyString) :: code_units rest
  end.

(** The own enumerable properties an object spread [{...v}] copies. *)
Definition spread (v : JsVal) : list (string * JsVal) :=
  match v with
  | JObj fields => fields
  | JArr items => indexed_from 0 items
  | JStr s => indexed_from 0 (code_units s)
  | _ => []
  end.

End Js.

(* ===================================================================== *)
(** * The document                                                        *)
(* ===================================================================== *)

Module Dom.
Import Js.

(** What the click handler of the add-to-cart button captures: the SKU it
    hands to the cart service. *)
Inductive Handler : Type :=
| AddToCartClick (sku : JsVal).

(** What the external render capabilities are given: the component and
    its props. *)
Inductive Widget : Type :=
| Button (children : JsVal) (icon : option string) (onClick : option Handler)
         (href : option string) (variant size : string)
| WishlistToggle (product : JsVal).

(** A node of the tree below the block: an element, a text node, markup
    assigned through [innerHTML] (kept as the source text the browser
    parses), or what an external [render(...)(container)] call mounted. *)
Inductive Node : Type :=
| Elem (tag className : string) (attrs : list (string * string)) (childNodes : list Node)
| Text (data : string)
| Markup (html : string)
| Mounted (w : Widget).

(** [document.createElement(tag)] *)
Definition createElement (tag : string) : Node := Elem tag "" [] [].

(** [el.className = c] *)
Definition set_className (el : Node) (c : string) : Node :=
  match el with
  | Elem tag _ attrs kids => Elem tag c attrs kids
  | _ => el
  end.

(** [el.<name> = value] for a reflected string attribute. *)
Definition set_attr (el : Node) (name value : string) : Node :=
  match el with
  | Elem tag c attrs kids => Elem tag c (attrs ++ [(name, value)]) kids
  | _ => el
  end.

(** [parent.appendChild(child)] *)
Definition appendChild (parent child : Node) : Node :=
  match parent with
  | Elem tag c attrs kids => Elem tag c attrs (kids ++ [child])
  | _ => parent
  end.

Definition set_childNodes (el : Node) (kids : list Node) : Node :=
  match el with
  | Elem tag c attrs _ => Elem tag c attrs kids
  | _ => el
  end.

(** The children a string leaves behind when assigned to [textContent]. *)
Definition text_children (s : string) : list Node :=
  if String.eqb s "" then [] else [Text s].

(** The children a string leaves behind when assigned to [innerHTML]. *)
Definition parsed_children (html : string) : list Node :=
  if String.eqb html "" then [] else [Markup html].

Section WithPlatform.
Variable P : Platform.

(** [el.textContent = v]: [undefined] and [null] clear the element, any
    other value is converted to a string. *)
Definition set_textContent (el : Node) (v : JsVal) : Completion Node :=
  if is_nullish v then Normal (set_childNodes el [])
  else cbind (ToString P v) (fun s => Normal (set_childNodes el (text_children s))).

(** [el.innerHTML = v]: [null] clears the element, any other value is
    converted to a string. *)
Definition set_innerHTML (el : Node) (v : JsVal) : Completion Node :=
  match v with
  | JNull => Normal (set_childNodes el [])
  | _ => cbind (ToString P v) (fun s => Normal (set_childNodes el (parsed_children s)))
  end.

(** [el.<name> = v] for a reflected string attribute. *)
Definition set_attr_val (el : Node) (name : string) (v : JsVal) : Completion Node :=
  cbind (ToString P v) (fun s => Normal (set_attr el name s)).

End WithPlatform.

(** [render(component, props)(container)] *)
Definition mount (w : Widget) (container : Node) : Node :=
  appendChild container (Mounted w).

(** The block element: its class token list and its children. *)
Record Block : Type := {
  classList : list string;
  childNodes : list Node
}.

Definition is_ascii_whitespace (c : ascii) : bool :=
  let n := nat_of_ascii c in
  ((n =? 9) || (n =? 10) || (n =? 12) || (n =? 13) || (n =? 32))%nat.

Fixpoint has_whitespace (s : string) : bool :=
  match s with
  | EmptyString => false
  | String c rest => is_ascii_whitespace c || has_whitespace rest
  end.

Definition mem_string (s : string) (l : list string) : bool :=
  existsb (String.eqb s) l.

(** [classList.add(token)]: a token that is empty or contains ASCII
    whitespace is refused with an exception; a token already in the set is
    not added again. *)
Definition classList_add (token : string) (b : Block) : Completion Block :=
  if String.eqb token "" then Throw (DOMException "SyntaxError")
  else if has_whitespace token then Throw (DOMException "InvalidCharacterError")
  else Normal {| classList := if mem_string token (classList b)
                              then classList b
                              else classList b ++ [token];
                 childNodes := childNodes b |}.

(** ** Queries on a tree, in document order *)

Fixpoint descendants (n : Node) : list Node :=
  n :: match n with
       | Elem _ _ _ kids =>
           (fix go (l : list Node) : list Node :=
              match l with
              | [] => []
              | k :: rest => descendants k ++ go rest
              end) kids
       | _ => []
       end.

Definition all_nodes (kids : list Node) : list Node :=
  flat_map descendants kids.

Definition has_class (c : string) (n : Node) : bool :=
  match n with
  | Elem _ c' _ _ => String.eqb c c'
  | _ => false
  end.

Definition has_tag (t : string) (n : Node) : bool :=
  match n with
  | Elem t' _ _ _ => String.eqb t t'
  | _ => false
  end.

(** [querySelectorAll('.c')] over the elements the program built. *)
Definition by_class (c : string) (kids : list Node) : list Node :=
  filter (has_class c) (all_nodes kids).

Definition by_tag (t : string) (kids : list Node) : list Node :=
  filter (has_tag t) (all_nodes kids).

End Dom.

(* ===================================================================== *)
(** * Runs: block state, effect trace, exceptions                         *)
(* ===================================================================== *)

Module Run.
Import Js Dom.

(** The request [fetch(url, {method, headers, body})] sends.  The body is
    kept as the value handed to [JSON.stringify]. *)
Record Request : Type := {
  req_url : JsVal;
  req_method : string;
  req_headers : list (string * JsVal);
  req_body : JsVal
}.

(** What [await response.json()] does: yields the parsed body or rejects. *)
Inductive JsonOutcome : Type :=
| JsonOk (data : JsVal)
| JsonFails (e : Exn).

(** What [await fetch(...)] does: yields a response or rejects. *)
Inductive FetchOutcome : Type :=
| Responds (body : JsonOutcome)
| Rejects (e : Exn).

(** The calls that leave the program. *)
Inductive Effect : Type :=
| EFetchPlaceholders
| EFetch (req : Request)
| EConsoleError (msg : string) (e : Exn)
| EEmit (name : string) (payload : JsVal).

(** A statement: from the block before it to its completion, the block
    after it and the effects it performed, in order.  The block keeps the
    mutations made before an exception. *)
Definition M (A : Type) : Type := Block -> Completion A * Block * list Effect.

Definition ret {A} (a : A) : M A := fun b => (Normal a, b, []).

Definition bind {A B} (m : M A) (k : A -> M B) : M B :=
  fun b =>
    match m b with
    | (Normal a, b1, t1) =>
        match k a b1 with
        | (r, b2, t2) => (r, b2, t1 ++ t2)
        end
    | (Throw e, b1, t1) => (Throw e, b1, t1)
    end.

Declare Scope run_scope.
Delimit Scope run_scope with run.
Notation "'let*' x ':=' m 'in' k" := (bind m (fun x => k))
  (at level 10, x name, m at level 100, k at level 200) : run_scope.
Notation "m ';;' k" := (bind m (fun _ => k))
  (at level 100, k at level 200, right associativity) : run_scope.

(** An expression evaluated inside a statement. *)
Definition lift {A} (c : Completion A) : M A := fun b => (c, b, []).

Definition throw {A} (e : Exn) : M A := lift (Throw e).

Definition perform (e : Effect) : M unit := fun b => (Normal tt, b, [e]).

(** [try { body } catch (error) { handler(error) }] *)
Definition try_catch {A} (body : M A) (handler : Exn -> M A) : M A :=
  fun b =>
    match body b with
    | (Normal a, b1, t1) => (Normal a, b1, t1)
    | (Throw e, b1, t1) =>
        match handler e b1 with
        | (r, b2, t2) => (r, b2, t1 ++ t2)
        end
    end.

(** [block.innerHTML = html] for a string [html]. *)
Definition block_set_innerHTML (html : string) : M unit :=
  fun b => (Normal tt, {| classList := classList b; childNodes := parsed_children html |}, []).

(** [block.classList.add(token)] *)
Definition block_classList_add (token : string) : M unit :=
  fun b =>
    match classList_add token b with
    | Normal b' => (Normal tt, b', [])
    | Throw e => (Throw e, b, [])
    end.

(** [block.appendChild(n)] *)
Definition block_appendChild (n : Node) : M unit :=
  fun b => (Normal tt, {| classList := classList b; childNodes := childNodes b ++ [n] |}, []).

Definition current_block : M Block := fun b => (Normal b, b, []).

(** [console.error(msg, e)] *)
Definition console_error (msg : string) (e : Exn) : M unit := perform (EConsoleError msg e).

(** [events.emit(name, payload)] *)
Definition events_emit (name : string) (payload : JsVal) : M unit := perform (EEmit name payload).

(** The events a trace emitted on the event bus. *)
Definition emitted (t : list Effect) : list (string * JsVal) :=
  flat_map (fun e => match e with EEmit n p => [(n, p)] | _ => [] end) t.

(** The network requests a trace sent. *)
Definition requests (t : list Effect) : list Request :=
  flat_map (fun e => match e with EFetch r => [r] | _ => [] end) t.

(** The errors a trace logged. *)
Definition logged (t : list Effect) : list (string * Exn) :=
  flat_map (fun e => match e with EConsoleError m x => [(m, x)] | _ => [] end) t.

End Run.

(* ===================================================================== *)
(** * The collaborators                                                   *)
(* ===================================================================== *)

Import Js Dom Run.

(** What the block calls into.  [fetchPlaceholders] is the label mapping
    the label provider resolves to, [readBlockConfig] the flat key to
    string mapping the config reader parses out of the block,
    [getConfigValue] the site configuration, [fetch] the transport with
    the backend behind it, [rootLink] the link builder. *)
Record Env : Type := {
  fetchPlaceholders : list (string * JsVal);
  readBlockConfig : Block -> gmap string string;
  getConfigValue : string -> JsVal;
  fetch : Request -> FetchOutcome;
  rootLink : string -> string
}.

(* ===================================================================== *)
(** * The block                                                           *)
(* ===================================================================== *)

Module Spotlight.

Open Scope run_scope.
Open Scope completion_scope.

Definition dquote : string := String (ascii_of_N 34) EmptyString.

(** The GraphQL document [fetchProductData] sends. *)
Definition query : string := "
    query getProduct($sku: String!) {
      products(skus: [$sku]) {
        sku
        name
        ... on SimpleProductView {
          id
          name
          price {
            final {
              amount {
                currency
                value
              }
            }
          }
          images {
            url
          }
        }
        urlKey
        images {
          url
        }
        shortDescription
      }
    }
  ".

(** The fixed markup of the loading and of the three error states. *)
Definition error_markup (msg : string) : string :=
  "<p class=" +:+ dquote +:+ "spotlight__error" +:+ dquote +:+ ">" +:+ msg +:+ "</p>".

Definition config_error_html : string := error_markup "Product SKU is required".
Definition not_found_html : string := error_markup "Product not found".
Definition fetch_error_html : string := error_markup "Error loading product".
Definition loading_html : string :=
  "<div class=" +:+ dquote +:+ "spotlight__loading" +:+ dquote +:+ ">Loading product...</div>".

Definition default_title : string := "Featured Product".
Definition default_theme : string := "default".
Definition loaded_event : string := "product-spotlight/loaded".

Section Program.
Variable P : Platform.
Variable env : Env.

(** [await fetch(endpoint, init)] *)
Definition host_fetch (req : Request) : M JsonOutcome :=
  perform (EFetch req) ;;
  match fetch env req with
  | Responds body => ret body
  | Rejects e => throw e
  end.

(** [await response.json()] *)
Definition response_json (response : JsonOutcome) : M JsVal :=
  match response with
  | JsonOk data => ret data
  | JsonFails e => throw e
  end.

(** The request [fetchProductData(sku)] sends: the endpoint and the
    extra headers come from the site configuration. *)
Definition product_request (sku : string) : Request :=
  let endpoint := getConfigValue env "commerce-core-endpoint" in
  let headers := getConfigValue env "headers" in
  {| req_url := endpoint;
     req_method := "POST";
     req_headers :=
       ("Content-Type", JStr "application/json")
         :: spread (js_or (get_opt headers "cs") (JObj []));
     req_body :=
       JObj [("query", JStr query);
             ("variables", JObj [("sku", JStr sku)])] |}.

(** [fetchProductData(sku)] *)
Definition fetchProductData (sku : string) : M JsVal :=
  try_catch
    (let* response := host_fetch (product_request sku) in
     let* data := response_json response in
     let* data_data := lift (get data "data") in
     ret (js_or (get_opt (get_opt data_data "products") "0") JNull))
    (fun error =>
       console_error "Error fetching product data:" error ;;
       ret JNull).

(** [createProductImage(product, container)] *)
Definition createProductImage (product : JsVal) (container : Node) : Completion Node :=
  let imageContainer := createElement "div" in
  let imageContainer := set_className imageContainer "spotlight__image-container" in
  let? images := get product "images" in
  let? imageContainer :=
    if ToBoolean (get_opt (get_opt images "0") "url") then
      let img := createElement "img" in
      let? images := get product "images" in
      let? first := get images "0" in
      let? url := get first "url" in
      let? img := set_attr_val P img "src" url in
      let? images := get product "images" in
      let? first := get images "0" in
      let? label := get first "label" in
      let? name := get product "name" in
      let? img := set_attr_val P img "alt" (js_or label name) in
      let img := set_className img "spotlight__image" in
      Normal (appendChild imageContainer img)
    else
      let placeholder := createElement "div" in
      let placeholder := set_className placeholder "spotlight__image-placeholder" in
      let? placeholder := set_textContent P placeholder (JStr "No Image Available") in
      Normal (appendChild imageContainer placeholder) in
  Normal (appendChild container imageContainer).

(** The price part of [createProductInfo] (its lines 130 to 152): the
    price container with the final price and, under a discount, the
    original price before it. *)
Definition createProductInfo_price (product : JsVal) : Completion Node :=
  let priceContainer := createElement "div" in
  let priceContainer := set_className priceContainer "spotlight__price-container" in
  let price := createElement "span" in
  let price := set_className price "spotlight__price" in
  let? price_range := get product "price_range" in
  let priceData := get_opt price_range "minimum_price" in
  let? built :=
    if ToBoolean priceData then
      let? final_price := get priceData "final_price" in
      let? currency := get final_price "currency" in
      let? final_price := get priceData "final_price" in
      let? finalPrice := get final_price "value" in
      let? regular_price := get priceData "regular_price" in
      let? regularPrice := get regular_price "value" in
      let? currency_text := ToString P currency in
      let? final_text := call_toFixed P finalPrice 2 in
      let? price := set_textContent P price (JStr (currency_text +:+ " " +:+ final_text)) in
      let? discounted := js_lt P finalPrice regularPrice in
      if discounted then
        let originalPrice := createElement "span" in
        let originalPrice := set_className originalPrice "spotlight__price-original" in
        let? currency_text := ToString P currency in
        let? regular_text := call_toFixed P regularPrice 2 in
        let? originalPrice :=
          set_textContent P originalPrice (JStr (currency_text +:+ " " +:+ regular_text)) in
        Normal (price, appendChild priceContainer originalPrice)
      else Normal (price, priceContainer)
    else Normal (price, priceContainer) in
  Normal (appendChild (snd built) (fst built)).

(** [createProductInfo(product, labels, container)] *)
Definition createProductInfo (product labels : JsVal) (container : Node) : Completion Node :=
  let infoContainer := createElement "div" in
  let infoContainer := set_className infoContainer "spotlight__info" in
  (* Product name *)
  let name := createElement "h2" in
  let name := set_className name "spotlight__name" in
  let? product_name := get product "name" in
  let? name := set_textContent P name product_name in
  let infoContainer := appendChild infoContainer name in
  (* Product price *)
  let? priceContainer := createProductInfo_price product in
  let infoContainer := appendChild infoContainer priceContainer in
  (* Product description *)
  let? short_description := get product "short_description" in
  let? infoContainer :=
    if ToBoolean (get_opt short_description "html") then
      let description := createElement "div" in
      let description := set_className description "spotlight__description" in
      let? short_description := get product "short_description" in
      let? html := get short_description "html" in
      let? description := set_innerHTML P description html in
      Normal (appendChild infoContainer description)
    else Normal infoContainer in
  (* Action buttons container *)
  let actionsContainer := createElement "div" in
  let actionsContainer := set_className actionsContainer "spotlight__actions" in
  (* Add to cart button *)
  let addToCartContainer := createElement "div" in
  let addToCartContainer := set_className addToCartContainer "spotlight__add-to-cart" in
  let? global := get labels "Global" in
  let? product_sku := get product "sku" in
  let addToCartContainer :=
    mount (Button (js_or (get_opt global "AddProductToCart") (JStr "Add to Cart"))
                  (Some "Cart")
                  (Some (AddToCartClick product_sku))
                  None "primary" "large")
          addToCartContainer in
  let actionsContainer := appendChild actionsContainer addToCartContainer in
  (* View product button *)
  let viewProductContainer := createElement "div" in
  let viewProductContainer := set_className viewProductContainer "spotlight__view-product" in
  let? global := get labels "Global" in
  let? url_key := get product "url_key" in
  let? url_key_text := ToString P url_key in
  let? product_sku := get product "sku" in
  let? sku_text := ToString P product_sku in
  let viewProductContainer :=
    mount (Button (js_or (get_opt global "ViewProduct") (JStr "View Details"))
                  None None
                  (Some (rootLink env ("/products/" +:+ url_key_text +:+ "/" +:+ sku_text)))
                  "secondary" "large")
          viewProductContainer in
  let actionsContainer := appendChild actionsContainer viewProductContainer in
  (* Wishlist toggle *)
  let wishlistContainer := createElement "div" in
  let wishlistContainer := set_className wishlistContainer "spotlight__wishlist" in
  let? product_sku := get product "sku" in
  let? product_name := get product "name" in
  let? price_range := get product "price_range" in
  let? media_gallery := get product "media_gallery" in
  let wishlistContainer :=
    mount (WishlistToggle
             (JObj [("sku", product_sku);
                    ("name", product_name);
                    ("price", get_opt (get_opt price_range "minimum_price") "final_price");
                    ("image", get_opt media_gallery "0")]))
          wishlistContainer in
  let actionsContainer := appendChild actionsContainer wishlistContainer in
  let infoContainer := appendChild infoContainer actionsContainer in
  Normal (appendChild container infoContainer).

(** The container [decorate] builds for a fetched product (its lines 266
    to 288), before it is attached to the block. *)
Definition decorate_container (title : string) (product labels : JsVal) : Completion Node :=
  (* Create main container *)
  let container := createElement "div" in
  let container := set_className container "spotlight__container" in
  (* Add title if provided *)
  let? container :=
    if negb (String.eqb title "") && negb (String.eqb title default_title) then
      let titleElement := createElement "h2" in
      let titleElement := set_className titleElement "spotlight__title" in
      let? titleElement := set_textContent P titleElement (JStr title) in
      Normal (appendChild container titleElement)
    else Normal container in
  (* Create content wrapper *)
  let contentWrapper := createElement "div" in
  let contentWrapper := set_className contentWrapper "spotlight__content" in
  let? contentWrapper := createProductImage product contentWrapper in
  let? contentWrapper := createProductInfo product labels contentWrapper in
  Normal (appendChild container contentWrapper).

(** The payload of the analytics event. *)
Definition loaded_payload (product : JsVal) : Completion JsVal :=
  let? product_sku := get product "sku" in
  let? product_name := get product "name" in
  let? price_range := get product "price_range" in
  Normal (JObj [("sku", product_sku);
                ("name", product_name);
                ("price", get_opt (get_opt (get_opt price_range "minimum_price")
                                           "final_price") "value")]).

(** [decorate(block)] *)
Definition decorate : M unit :=
  (* Get labels for internationalization *)
  let* labels := (perform EFetchPlaceholders ;; ret (JObj (fetchPlaceholders env))) in
  (* Read block configuration *)
  let* block := current_block in
  let config := readBlockConfig env block in
  let sku := config !! "sku" in
  let title := default default_title (config !! "title") in
  let theme := default default_theme (config !! "theme") in
  (* Validate required configuration *)
  match sku with
  | None | Some "" => block_set_innerHTML config_error_html
  | Some sku =>
      (* Add theme class *)
      block_classList_add ("spotlight--" +:+ theme) ;;
      (* Show loading state *)
      block_set_innerHTML loading_html ;;
      try_catch
        ((* Fetch product data *)
         let* product := fetchProductData sku in
         if negb (ToBoolean product) then block_set_innerHTML not_found_html
         else
           (* Clear loading state and create the spotlight structure *)
           block_set_innerHTML "" ;;
           let* container := lift (decorate_container title product labels) in
           block_appendChild container ;;
           (* Publish analytics event *)
           let* payload := lift (loaded_payload product) in
           events_emit loaded_event payload)
        (fun error =>
           console_error "Error in product spotlight block:" error ;;
           block_set_innerHTML fetch_error_html)
  end.

End Program.

(** ** The states a block's content can show *)

Inductive RenderState : Type :=
| Loading
| Rendered
| NotFound
| ConfigError
| FetchError.

Definition render_state (b : Block) : option RenderState :=
  match childNodes b with
  | [Markup html] =>
      if String.eqb html loading_html then Some Loading
      else if String.eqb html not_found_html then Some NotFound
      else if String.eqb html config_error_html then Some ConfigError
      else if String.eqb html fetch_error_html then Some FetchError
      else None
  | [Elem tag c _ _] =>
      if String.eqb tag "div" && String.eqb c "spotlight__container"
      then Some Rendered else None
  | _ => None
  end.

(** ** The click handler of the add-to-cart button *)

(** The add-to-cart container once the page is shown: its children, each
    with the identity of its node; the timers set and not yet fired, each
    with the node its callback removes and its delay in milliseconds; the
    item lists handed to the cart service; the next fresh node identity. *)
Record Live : Type := {
  live_children : list (nat * Node);
  timers : list (nat * Z);
  cart_calls : list JsVal;
  next_id : nat
}.

Fixpoint number_from (i : nat) (kids : list Node) : list (nat * Node) :=
  match kids with
  | [] => []
  | k :: rest => (i, k) :: number_from (S i) rest
  end.

(** The container as [createProductInfo] leaves it: no timer set, the
    cart service not called. *)
Definition live (addToCartContainer : Node) : Live :=
  let kids := match addToCartContainer with
              | Elem _ _ _ kids => kids
              | _ => []
              end in
  {| live_children := number_from 0%nat kids;
     timers := [];
     cart_calls := [];
     next_id := length kids |}.

(** [node.remove()]: the node leaves its parent; a node that has no
    parent is left alone. *)
Definition remove_node (id : nat) (kids : list (nat * Node)) : list (nat * Node) :=
  List.filter (fun c => negb (Nat.eqb (fst c) id)) kids.

(** What can happen to the container after the page is shown: a click on
    the button, or the browser running the callback of the [k]-th timer
    still pending. *)
Inductive Event : Type :=
| Click
| TimerFires (k : nat).

Section Handler.
Variable P : Platform.

(** The [onClick] of the add-to-cart button ([createProductInfo], lines
    174 to 188).  The call to the cart service is not awaited: it is
    recorded and the handler goes on. *)
Definition onClick (h : Handler) (s : Live) : Completion Live :=
  match h with
  | AddToCartClick product_sku =>
      let items := JArr [JObj [("sku", product_sku); ("quantity", JNum (NFin 1))]] in
      (* Show success feedback *)
      let successMessage := createElement "div" in
      let successMessage := set_className successMessage "spotlight__success-message" in
      let? successMessage := set_textContent P successMessage (JStr "Added to cart!") in
      Normal {| live_children := live_children s ++ [(next_id s, successMessage)];
                timers := timers s ++ [(next_id s, 3000)];
                cart_calls := cart_calls s ++ [items];
                next_id := S (next_id s) |}
  end.

(** The callback handed to [setTimeout] (lines 185 to 187) runs once and
    removes the message it was created with. *)
Definition timer_fires (k : nat) (s : Live) : Live :=
  match nth_error (timers s) k with
  | None => s
  | Some (id, _) =>
      {| live_children := remove_node id (live_children s);
         timers := firstn k (timers s) ++ skipn (S k) (timers s);
         cart_calls := cart_calls s;
         next_id := next_id s |}
  end.

Definition handle (h : Handler) (s : Live) (e : Event) : Completion Live :=
  match e with
  | Click => onClick h s
  | TimerFires k => Normal (timer_fires k s)
  end.

Fixpoint handle_all (h : Handler) (s : Live) (es : list Event) : Completion Live :=
  match es with
  | [] => Normal s
  | e :: rest => let? s := handle h s e in handle_all h s rest
  end.

End Handler.

End Spotlight.

Import Spotlight.

(* ===================================================================== *)
(** * The vocabulary of the properties                                    *)
(* ===================================================================== *)

(** The two messages the program logs errors under. *)
Definition fetch_error_msg : string := "Error fetching product data:".
Definition block_error_msg : string := "Error in product spotlight block:".

(** A statement returns [a]: from every block it completes normally with
    [a] and leaves the block as it was. *)
Definition returns {A} (m : M A) (a : A) : Prop :=
  forall b, exists t, m b = (Normal a, b, t).

(** The class list of [b] once [token] has been added to it. *)
Definition themed (token : string) (b : Block) : list string :=
  if mem_string token (classList b) then classList b else classList b ++ [token].

(** The payload of the event for a product that is not [undefined] or
    [null]. *)
Definition payload_of (product : JsVal) : JsVal :=
  JObj [("sku", own_property product "sku");
        ("name", own_property product "name");
        ("price", get_opt (get_opt (get_opt (own_property product "price_range")
                                            "minimum_price") "final_price") "value")].

(** What the guarded region leaves behind once the fetcher has returned
    [product]: the block's children and the effects after the fetch. *)
Definition guarded_outcome (P : Platform) (env : Env) (title : string) (product : JsVal)
  : list Node * list Effect :=
  if ToBoolean product then
    match decorate_container P env title product (JObj (fetchPlaceholders env)) with
    | Normal container => ([container], [EEmit loaded_event (payload_of product)])
    | Throw e => ([Markup fetch_error_html], [EConsoleError block_error_msg e])
    end
  else ([Markup not_found_html], []).

(** In a run with trace [t] the fetcher was called for [sku], which shows
    as its request in the trace, and returned [v]. *)
Definition fetch_returned (env : Env) (sku : string) (t : list Effect) (v : JsVal) : Prop :=
  requests t = [product_request env sku] /\ returns (fetchProductData env sku) v.

(** The title element [decorate] builds: only for a non-empty title other
    than the default. *)
Definition title_nodes (title : string) : list Node :=
  if negb (String.eqb title "") && negb (String.eqb title default_title)
  then [Elem "h2" "spotlight__title" [] [Text title]]
  else [].

(** [v.k1.k2...] as the spec reads it: the value at the end of the path,
    or nothing when a value on the way is [undefined] or [null] (where
    the plain property read would throw). *)
Fixpoint read_path (v : JsVal) (keys : list string) : option JsVal :=
  match keys with
  | [] => Some v
  | k :: rest => if is_nullish v then None else read_path (own_property v k) rest
  end.

(** The paths of the pricing data. *)
Definition final_price_value_path : list string :=
  ["price_range"; "minimum_price"; "final_price"; "value"].

(** [product.price_range?.minimum_price], the value [createProductInfo]
    tests for presence. *)
Definition priceData_of (product : JsVal) : JsVal :=
  get_opt (own_property product "price_range") "minimum_price".

(** The pricing data has no [final_price], or one without a numeric
    [value]. *)
Definition lacks_final_price (priceData : JsVal) : Prop :=
  is_nullish (own_property priceData "final_price") = true \/
  forall n, own_property (own_property priceData "final_price") "value" <> JNum n.

(** Nodes without element structure of their own: text, assigned markup
    and mounted components. *)
Definition inert (n : Node) : bool :=
  match n with
  | Elem _ _ _ _ => false
  | _ => true
  end.

(** The fixed placeholder of the image region. *)
Definition image_placeholder : Node :=
  Elem "div" "spotlight__image-placeholder" [] [Text "No Image Available"].

(** The number of hundredths nearest to [x], the larger on a tie. *)
Definition hundredths (x : Q) : Z := Qfloor (x * 100 + (1 # 2)).

(** A value to two decimal places, as the spec words it: the sign, the
    integer digits of the nearest number of hundredths, a point and its
    two fraction digits. *)
Definition two_decimals (x : Q) : string :=
  let n := hundredths (Qabs x) in
  (if Qle_bool 0 x then "" else "-")
    +:+ decimal (n / 100) +:+ "."
    +:+ String (digit_char ((n / 10) mod 10)) (String (digit_char (n mod 10)) "").

Definition final_price_currency_path : list string :=
  ["price_range"; "minimum_price"; "final_price"; "currency"].
Definition regular_price_value_path : list string :=
  ["price_range"; "minimum_price"; "regular_price"; "value"].

(** The two price elements. *)
Definition price_element (currency : string) (value : Q) : Node :=
  Elem "span" "spotlight__price" [] [Text (currency +:+ " " +:+ two_decimals value)].
Definition original_price_element (currency : string) (value : Q) : Node :=
  Elem "span" "spotlight__price-original" [] [Text (currency +:+ " " +:+ two_decimals value)].

(** The three mounted actions, in their fixed order. *)
Definition actions_shape (actions : Node) : Prop :=
  exists w1 w2 w3,
    actions = Elem "div" "spotlight__actions" []
                [Elem "div" "spotlight__add-to-cart" [] [Mounted w1];
                 Elem "div" "spotlight__view-product" [] [Mounted w2];
                 Elem "div" "spotlight__wishlist" [] [Mounted w3]].

(** Where a response body holds its product list. *)
Definition products_path : list string := ["data"; "products"].

(** [product.images?.[0]], the only image [createProductImage] looks at. *)
Definition first_image (product : JsVal) : JsVal :=
  get_opt (own_property product "images") "0".

(** The image element for a source and an alternative text. *)
Definition image_element (src alt : string) : Node :=
  Elem "img" "spotlight__image" [("src", src); ("alt", alt)] [].

(** Text and assigned markup: the nodes that carry no class and no
    mounted component. *)
Definition textual (n : Node) : bool :=
  match n with
  | Text _ | Markup _ => true
  | _ => false
  end.

(** The components mounted below some nodes, in document order. *)
Definition mounted (kids : list Node) : list Widget :=
  flat_map (fun n => match n with Mounted w => [w] | _ => [] end) (all_nodes kids).

(** The class names of the elements below some nodes, in document order. *)
Definition class_hooks (kids : list Node) : list string :=
  flat_map (fun n => match n with Elem _ c _ _ => [c] | _ => [] end) (all_nodes kids).

(** The three components of the actions region, as [createProductInfo]
    hands them to the render capabilities. *)
Definition add_to_cart_button (product labels : JsVal) : Widget :=
  Button (js_or (get_opt (own_property labels "Global") "AddProductToCart")
                (JStr "Add to Cart"))
         (Some "Cart") (Some (AddToCartClick (own_property product "sku")))
         None "primary" "large".

Definition view_details_button (env : Env) (labels : JsVal) (url_key sku : string) : Widget :=
  Button (js_or (get_opt (own_property labels "Global") "ViewProduct")
                (JStr "View Details"))
         None None
         (Some (rootLink env ("/products/" +:+ url_key +:+ "/" +:+ sku)))
         "secondary" "large".

Definition wishlist_toggle (product : JsVal) : Widget :=
  WishlistToggle
    (JObj [("sku", own_property product "sku");
           ("name", own_property product "name");
           ("price", get_opt (get_opt (own_property product "price_range")
                                      "minimum_price") "final_price");
           ("image", get_opt (own_property product "media_gallery") "0")]).

Definition actions_element (env : Env) (product labels : JsVal) (url_key sku : string)
  : Node :=
  Elem "div" "spotlight__actions" []
    [Elem "div" "spotlight__add-to-cart" [] [Mounted (add_to_cart_button product labels)];
     Elem "div" "spotlight__view-product" []
       [Mounted (view_details_button env labels url_key sku)];
     Elem "div" "spotlight__wishlist" [] [Mounted (wishlist_toggle product)]].

(** [product.short_description?.html], the markup of the description. *)
Definition description_html (product : JsVal) : JsVal :=
  get_opt (own_property product "short_description") "html".

(** The message a click shows. *)
Definition success_message : Node :=
  Elem "div" "spotlight__success-message" [] [Text "Added to cart!"].

(** The item list a click hands to the cart service. *)
Definition cart_items (h : Handler) : JsVal :=
  match h with
  | AddToCartClick sku => JArr [JObj [("sku", sku); ("quantity", JNum (NFin 1))]]
  end.

Definition is_click (e : Event) : bool :=
  match e with
  | Click => true
  | TimerFires _ => false
  end.

(** The clicks among a sequence of events. *)
Definition clicks (es : list Event) : nat := length (List.filter is_click es).

(** The handler the add-to-cart button was rendered with. *)
Definition add_to_cart_handler (product : JsVal) : Handler :=
  AddToCartClick (own_property product "sku").

(** What holds of the live container whatever happened to it: after the
    rendered children come the messages of the timers still pending, in
    the order of the timers. *)
Definition live_invariant (kids : list Node) (h : Handler) (n : nat) (s : Live) : Prop :=
  live_children s
  = number_from 0%nat kids ++ map (fun t => (fst t, success_message)) (timers s)
  /\ List.NoDup (map fst (timers s))
  /\ Forall (fun t => (length kids <= fst t < next_id s)%nat /\ snd t = 3000) (timers s)
  /\ (length kids <= next_id s)%nat
  /\ cart_calls s = repeat (cart_items h) n.

(* ===================================================================== *)
(** * Sample data                                                         *)
(* ===================================================================== *)

(** The product of the end-to-end example. *)
Definition mug : JsVal :=
  JObj [("sku", JStr "24-MB01");
        ("name", JStr "Test Mug");
        ("price_range",
         JObj [("minimum_price",
                JObj [("final_price",
                       JObj [("currency", JStr "USD"); ("value", JNum (NFin 15))]);
                      ("regular_price", JObj [("value", JNum (NFin 15))])])]);
        ("images", JArr [])].

(** A response body whose first product is [first]. *)
Definition products_response (first : JsVal) (rest : list JsVal) : JsVal :=
  JObj [("data", JObj [("products", JArr (first :: rest))])].

Definition mug_config : gmap string string :=
  <["sku" := "24-MB01"]> (<["theme" := "dark"]> ∅).

(** A stand-in for the platform's number conversions; the runs below
    never reach them. *)
Definition sample_platform : Platform :=
  {| Number_toString_pos := fun q => decimal (Qfloor q);
     StringToNumber := fun _ => NNaN |}.

(** A page with no labels and no site configuration, a config reader that
    yields [config] and a transport that answers every request with
    [outcome]. *)
Definition sample_env (config : gmap string string) (outcome : FetchOutcome) : Env :=
  {| fetchPlaceholders := [];
     readBlockConfig := fun _ => config;
     getConfigValue := fun _ => JUndefined;
     fetch := fun _ => outcome;
     rootLink := fun path => path |}.

Definition sample_block : Block :=
  {| classList := ["product-spotlight"; "block"]; childNodes := [] |}.

Definition offline : FetchOutcome := Rejects (HostError (JStr "Failed to fetch")).
Definition answers (data : JsVal) : FetchOutcome := Responds (JsonOk data).

Definition mug_env : Env := sample_env mug_config (answers (products_response mug [])).

Definition empty_catalog_env : Env :=
  sample_env mug_config (answers (JObj [("data", JObj [("products", JArr [])])])).

(** A discounted product: 80 instead of 100. *)
Definition discounted : JsVal :=
  JObj [("sku", JStr "24-WB04");
        ("name", JStr "Tote");
        ("price_range",
         JObj [("minimum_price",
                JObj [("final_price",
                       JObj [("currency", JStr "USD"); ("value", JNum (NFin 80))]);
                      ("regular_price", JObj [("value", JNum (NFin 100))])])])].

(** Pricing data that is present and has no [final_price], and pricing
    data whose final value overflowed to [Infinity] when it was parsed. *)
Definition no_final_price : JsVal :=
  JObj [("sku", JStr "24-MB01");
        ("name", JStr "Test Mug");
        ("price_range", JObj [("minimum_price", JObj [])])].

Definition infinite_price : JsVal :=
  JObj [("sku", JStr "24-MB01");
        ("name", JStr "Test Mug");
        ("price_range",
         JObj [("minimum_price",
                JObj [("final_price",
                       JObj [("currency", JStr "USD"); ("value", JNum (NInf false))]);
                      ("regular_price", JObj [("value", JNum (NFin 15))])])])].


Definition no_final_price_env : Env :=
  sample_env mug_config (answers (products_response no_final_price [])).

Definition neon_env : Env :=
  sample_env (<["theme" := "neon"]> mug_config) (answers (products_response mug [])).

(** A theme of two words: [classList.add] refuses the token, [decorate]
    ends with the exception and the block is left as it was. *)
Definition two_word_theme_env : Env :=
  sample_env (<["theme" := "dark mode"]> mug_config) (answers (products_response mug [])).

(** A site configuration with a store header for the catalog service. *)
Definition store_headers : JsVal :=
  JObj [("cs", JObj [("Magento-Store-Code", JStr "main"); ("x-api-key", JStr "k1")])].

Definition configured_env (outcome : FetchOutcome) : Env :=
  {| fetchPlaceholders := [];
     readBlockConfig := fun _ => mug_config;
     getConfigValue := fun key =>
       if String.eqb key "headers" then store_headers
       else JStr "https://catalog.example/graphql";
     fetch := fun _ => outcome;
     rootLink := fun path => path |}.

(** A product with two images, the first without a label; one with that
    first image only; and one with an image and neither label nor name. *)
Definition pictured : JsVal :=
  JObj [("sku", JStr "24-WB04");
        ("name", JStr "Tote");
        ("images", JArr [JObj [("url", JStr "/media/tote.jpg")];
                         JObj [("url", JStr "/media/tote-back.jpg")]])].

Definition front_only : JsVal :=
  JObj [("name", JStr "Tote");
        ("images", JArr [JObj [("url", JStr "/media/tote.jpg")]])].

Definition nameless : JsVal :=
  JObj [("sku", JStr "24-WB04");
        ("images", JArr [JObj [("url", JStr "/media/tote.jpg")]])].

Definition content_wrapper : Node := Elem "div" "spotlight__content" [] [].

(** Pricing data with a final price and no regular price. *)
Definition no_regular_price : JsVal :=
  JObj [("sku", JStr "24-MB01");
        ("name", JStr "Test Mug");
        ("price_range",
         JObj [("minimum_price",
                JObj [("final_price",
                       JObj [("currency", JStr "USD"); ("value", JNum (NFin 15))])])])].

(** A product priced above its regular price. *)
Definition surcharged : JsVal :=
  JObj [("sku", JStr "24-WB04");
        ("name", JStr "Tote");
        ("price_range",
         JObj [("minimum_price",
                JObj [("final_price",
                       JObj [("currency", JStr "USD"); ("value", JNum (NFin 120))]);
                      ("regular_price", JObj [("value", JNum (NFin 100))])])])].

(** A product with a description. *)
Definition described : JsVal :=
  JObj [("sku", JStr "24-WB04");
        ("name", JStr "Tote");
        ("short_description", JObj [("html", JStr "<p>A <b>roomy</b> tote.</p>")])].

Definition described_env : Env :=
  sample_env mug_config (answers (products_response described [])).

(* ===================================================================== *)
(** * Properties of the fetcher and of the orchestrator                   *)
(* ===================================================================== *)

(** ** The fetcher *)

Lemma fetchProductData_rejected env sku b e :
  fetch env (product_request env sku) = Rejects e ->
  fetchProductData env sku b
  = (Normal JNull, b, [EFetch (product_request env sku); EConsoleError fetch_error_msg e]).
Proof.
  intros H. unfold fetchProductData, try_catch, bind, host_fetch, perform.
  cbn. rewrite H. reflexivity.
Qed.

Lemma fetchProductData_unparsable env sku b e :
  fetch env (product_request env sku) = Responds (JsonFails e) ->
  fetchProductData env sku b
  = (Normal JNull, b, [EFetch (product_request env sku); EConsoleError fetch_error_msg e]).
Proof.
  intros H. unfold fetchProductData, try_catch, bind, host_fetch, perform.
  cbn. rewrite H. reflexivity.
Qed.

Lemma fetchProductData_parsed env sku b data :
  fetch env (product_request env sku) = Responds (JsonOk data) ->
  fetchProductData env sku b
  = match get data "data" with
    | Normal d =>
        (Normal (js_or (get_opt (get_opt d "products") "0") JNull), b,
         [EFetch (product_request env sku)])
    | Throw e =>
        (Normal JNull, b,
         [EFetch (product_request env sku); EConsoleError fetch_error_msg e])
    end.
Proof.
  intros H. unfold fetchProductData, try_catch, bind, host_fetch, perform.
  cbn. rewrite H. cbn. destruct (get data "data"); reflexivity.
Qed.

(** The fetcher always returns, whatever the transport does, and leaves
    the block alone. *)
Lemma fetchProductData_total env sku :
  exists v t, forall b, fetchProductData env sku b = (Normal v, b, t).
Proof.
  destruct (fetch env (product_request env sku)) as [[data | e] | e] eqn:H.
  - destruct (get data "data") as [d | e] eqn:G.
    + do 2 eexists. intros b. rewrite (fetchProductData_parsed _ _ _ _ H), G. reflexivity.
    + do 2 eexists. intros b. rewrite (fetchProductData_parsed _ _ _ _ H), G. reflexivity.
  - do 2 eexists. intros b. apply fetchProductData_unparsable, H.
  - do 2 eexists. intros b. apply fetchProductData_rejected, H.
Qed.

(** A value the fetcher returns is a product or [null], never another
    falsy value. *)
Lemma fetchProductData_value env sku b v b' t :
  fetchProductData env sku b = (Normal v, b', t) ->
  ToBoolean v = true \/ v = JNull.
Proof.
  destruct (fetch env (product_request env sku)) as [[data | e] | e] eqn:H.
  - rewrite (fetchProductData_parsed _ _ _ _ H).
    destruct (get data "data") as [d | e]; intros [= <- _ _]; auto.
    unfold js_or. destruct (ToBoolean (get_opt _ _)) eqn:T; auto.
  - rewrite (fetchProductData_unparsable _ _ _ _ H). intros [= <- _ _]. auto.
  - rewrite (fetchProductData_rejected _ _ _ _ H). intros [= <- _ _]. auto.
Qed.

(** ** The orchestrator, path by path *)

Lemma truthy_not_nullish v : ToBoolean v = true -> is_nullish v = false.
Proof. destruct v; simpl; congruence. Qed.

Lemma get_truthy v k : ToBoolean v = true -> get v k = Normal (own_property v k).
Proof. intros H. unfold get. now rewrite (truthy_not_nullish _ H). Qed.

Lemma loaded_payload_truthy product :
  ToBoolean product = true -> loaded_payload product = Normal (payload_of product).
Proof.
  intros H. unfold loaded_payload. rewrite !(get_truthy _ _ H). reflexivity.
Qed.

Lemma classList_add_token theme b :
  classList_add ("spotlight--" +:+ theme) b
  = if has_whitespace theme then Throw (DOMException "InvalidCharacterError")
    else Normal {| classList := themed ("spotlight--" +:+ theme) b;
                   childNodes := childNodes b |}.
Proof. reflexivity. Qed.

Section Paths.
Variable P : Platform.
Variable env : Env.
Variable b : Block.

Let config := readBlockConfig env b.
Let title := default default_title (config !! "title").
Let theme := default default_theme (config !! "theme").

(** Validating to ConfigError. *)
Lemma decorate_no_sku :
  config !! "sku" = None \/ config !! "sku" = Some "" ->
  decorate P env b
  = (Normal tt,
     {| classList := classList b; childNodes := [Markup config_error_html] |},
     [EFetchPlaceholders]).
Proof.
  unfold decorate, bind, perform, ret, current_block. cbn.
  fold config. intros [-> | ->]; reflexivity.
Qed.

Variable sku : string.
Hypothesis Hsku : config !! "sku" = Some sku.
Hypothesis Hne : sku <> "".

(** A theme that makes the class token invalid: [classList.add] throws
    before the guarded region is entered. *)
Lemma decorate_bad_theme :
  has_whitespace theme = true ->
  decorate P env b = (Throw (DOMException "InvalidCharacterError"), b, [EFetchPlaceholders]).
Proof.
  intros W. unfold decorate, bind, perform, ret, current_block. cbn.
  fold config. rewrite Hsku. destruct sku as [| c s]; [congruence |].
  fold theme. unfold block_classList_add.
  rewrite classList_add_token, W. reflexivity.
Qed.

(** Loading to one of the three terminal states behind the fetch. *)
Lemma decorate_fetched product tf :
  has_whitespace theme = false ->
  (forall b', fetchProductData env sku b' = (Normal product, b', tf)) ->
  decorate P env b
  = (Normal tt,
     {| classList := themed ("spotlight--" +:+ theme) b;
        childNodes := fst (guarded_outcome P env title product) |},
     EFetchPlaceholders :: tf ++ snd (guarded_outcome P env title product)).
Proof.
  intros W F. unfold decorate, bind, perform, ret, current_block. cbn.
  fold config. rewrite Hsku. destruct sku as [| c s] eqn:E; [congruence |].
  fold theme title. unfold block_classList_add.
  rewrite classList_add_token, W. cbn.
  unfold try_catch, bind. rewrite F. unfold guarded_outcome.
  destruct (ToBoolean product) eqn:T; cbn.
  - unfold lift.
    destruct (decorate_container P env title product _) as [container | e]; cbn.
    + rewrite (loaded_payload_truthy _ T). reflexivity.
    + rewrite app_nil_r. reflexivity.
  - rewrite app_nil_r. reflexivity.
Qed.

End Paths.

(** The fetcher's trace: the one request, no event. *)
Lemma fetchProductData_trace env sku b r b' t :
  fetchProductData env sku b = (r, b', t) ->
  requests t = [product_request env sku] /\ emitted t = [].
Proof.
  destruct (fetch env (product_request env sku)) as [[data | e] | e] eqn:H.
  - rewrite (fetchProductData_parsed _ _ _ _ H).
    destruct (get data "data"); intros [= _ _ <-]; auto.
  - rewrite (fetchProductData_unparsable _ _ _ _ H). intros [= _ _ <-]. auto.
  - rewrite (fetchProductData_rejected _ _ _ _ H). intros [= _ _ <-]. auto.
Qed.

Lemma emitted_app t1 t2 : emitted (t1 ++ t2) = emitted t1 ++ emitted t2.
Proof. unfold emitted. now rewrite flat_map_app. Qed.


Lemma logged_app t1 t2 : logged (t1 ++ t2) = logged t1 ++ logged t2.
Proof. unfold logged. now rewrite flat_map_app. Qed.

(** A run that called the fetcher got past validation and the theme
    class, and ended in the guarded region's outcome. *)
Lemma decorate_after_fetch P env b sku product r b' t :
  readBlockConfig env b !! "sku" = Some sku -> sku <> "" ->
  decorate P env b = (r, b', t) ->
  fetch_returned env sku t product ->
  let title := default default_title (readBlockConfig env b !! "title") in
  let theme := default default_theme (readBlockConfig env b !! "theme") in
  has_whitespace theme = false /\
  r = Normal tt /\
  classList b' = themed ("spotlight--" +:+ theme) b /\
  childNodes b' = fst (guarded_outcome P env title product) /\
  emitted t = emitted (snd (guarded_outcome P env title product)) /\
  exists tf, t = EFetchPlaceholders :: tf ++ snd (guarded_outcome P env title product).
Proof.
  intros Hsku Hne Hrun [Hreq Hret] title theme.
  destruct (has_whitespace theme) eqn:W.
  - rewrite (decorate_bad_theme P env b sku Hsku Hne W) in Hrun.
    injection Hrun as _ _ <-. discriminate Hreq.
  - destruct (fetchProductData_total env sku) as (v & tf & F).
    assert (v = product) as ->.
    { destruct (Hret b) as [t' Ht']. rewrite F in Ht'. congruence. }
    rewrite (decorate_fetched P env b sku Hsku Hne product tf W F) in Hrun.
    injection Hrun as <- <- <-. fold title theme.
    destruct (fetchProductData_trace _ _ _ _ _ _ (F b)) as [_ Hem].
    repeat split; try reflexivity.
    + cbn. now rewrite emitted_app, Hem.
    + now exists tf.
Qed.

(** Every run of [decorate] takes one of three paths. *)
Lemma decorate_cases P env b :
  let config := readBlockConfig env b in
  let title := default default_title (config !! "title") in
  let theme := default default_theme (config !! "theme") in
  ((config !! "sku" = None \/ config !! "sku" = Some "") /\
   decorate P env b
   = (Normal tt,
      {| classList := classList b; childNodes := [Markup config_error_html] |},
      [EFetchPlaceholders]))
  \/ (exists sku,
        config !! "sku" = Some sku /\ sku <> "" /\ has_whitespace theme = true /\
        decorate P env b
        = (Throw (DOMException "InvalidCharacterError"), b, [EFetchPlaceholders]))
  \/ (exists sku product tf,
        config !! "sku" = Some sku /\ sku <> "" /\ has_whitespace theme = false /\
        (forall b', fetchProductData env sku b' = (Normal product, b', tf)) /\
        decorate P env b
        = (Normal tt,
           {| classList := themed ("spotlight--" +:+ theme) b;
              childNodes := fst (guarded_outcome P env title product) |},
           EFetchPlaceholders :: tf ++ snd (guarded_outcome P env title product))).
Proof.
  intros config title theme.
  destruct (config !! "sku") as [sku |] eqn:Hsku.
  - destruct (String.eqb_spec sku "") as [-> | Hne].
    + left. split; [auto |]. apply decorate_no_sku. now right.
    + right. destruct (has_whitespace theme) eqn:W.
      * left. exists sku. repeat split; auto.
        now apply (decorate_bad_theme P env b sku).
      * right. destruct (fetchProductData_total env sku) as (v & tf & F).
        exists sku, v, tf. repeat split; auto.
        now apply (decorate_fetched P env b sku).
  - left. split; [auto |]. apply decorate_no_sku. now left.
Qed.

Lemma decorate_container_eq P env title product labels :
  decorate_container P env title product labels
  = cbind (createProductImage P product (Elem "div" "spotlight__content" [] [])) (fun c1 =>
    cbind (createProductInfo P env product labels c1) (fun c2 =>
    Normal (Elem "div" "spotlight__container" [] (title_nodes title ++ [c2])))).
Proof.
  unfold decorate_container, title_nodes.
  destruct (String.eqb_spec title "") as [-> | Hne]; [reflexivity |].
  destruct (String.eqb title default_title); cbn; [reflexivity |].
  unfold text_children. destruct (String.eqb_spec title ""); [contradiction | reflexivity].
Qed.

Lemma decorate_container_root P env title product labels container :
  decorate_container P env title product labels = Normal container ->
  exists kids, container = Elem "div" "spotlight__container" [] kids.
Proof.
  rewrite decorate_container_eq. intros H.
  destruct (createProductImage _ _ _) as [c1 |]; [| discriminate].
  cbn in H. destruct (createProductInfo _ _ _ _ _) as [c2 |]; [| discriminate].
  injection H as <-. now eexists.
Qed.

Lemma decorate_container_rendered P env title product labels container b :
  decorate_container P env title product labels = Normal container ->
  childNodes b = [container] ->
  render_state b = Some Rendered.
Proof.
  rewrite decorate_container_eq. intros H K.
  destruct (createProductImage _ _ _) as [c1 |]; [| discriminate].
  cbn in H. destruct (createProductInfo _ _ _ _ _) as [c2 |]; [| discriminate].
  injection H as <-. unfold render_state. rewrite K. reflexivity.
Qed.

(* ===================================================================== *)
(** * The pipeline, property by property                                  *)
(* ===================================================================== *)

(** ** Missing configuration *)

(** C1. For every configuration whose [sku] key is missing or maps to the
    empty string, [decorate] completes with the block showing the fixed
    "Product SKU is required" message (the ConfigError state), and the
    run sends no network request: its only outward call is the one to the
    label provider, which precedes validation. *)
Theorem decorate_missing_sku_is_config_error P env b :
  readBlockConfig env b !! "sku" = None \/ readBlockConfig env b !! "sku" = Some "" ->
  exists b' t,
    decorate P env b = (Normal tt, b', t) /\
    render_state b' = Some ConfigError /\
    childNodes b' = [Markup config_error_html] /\
    classList b' = classList b /\
    requests t = [] /\
    t = [EFetchPlaceholders].
Proof.
  intros H. do 2 eexists. split; [apply decorate_no_sku, H |].
  repeat split; reflexivity.
Qed.

(** ** The fetcher absorbs its errors *)


(** ** Not found *)

(** C4. For every configuration with a non-empty [sku], in a run where
    the fetcher is called and returns [null], [decorate] completes with
    the block showing the fixed "Product not found" message (the NotFound
    state) and nothing else, and no analytics event is emitted. *)
Theorem decorate_null_product_is_not_found P env b sku r b' t :
  readBlockConfig env b !! "sku" = Some sku -> sku <> "" ->
  decorate P env b = (r, b', t) ->
  fetch_returned env sku t JNull ->
  r = Normal tt /\
  render_state b' = Some NotFound /\
  childNodes b' = [Markup not_found_html] /\
  emitted t = [].
Proof.
  intros Hsku Hne Hrun Hret.
  destruct (decorate_after_fetch P env b sku JNull r b' t Hsku Hne Hrun Hret)
    as (_ & -> & _ & K & E & _).
  cbn in K, E. unfold render_state. rewrite K. auto.
Qed.

(** ** The analytics event *)

Lemma payload_price product :
  ToBoolean product = true ->
  get_opt (get_opt (get_opt (own_property product "price_range")
                            "minimum_price") "final_price") "value"
  = default JUndefined (read_path product final_price_value_path).
Proof.
  intros T. cbn. rewrite (truthy_not_nullish _ T). unfold get_opt.
  destruct (is_nullish (own_property product "price_range")); [reflexivity |].
  destruct (is_nullish (own_property (own_property product "price_range") "minimum_price"));
    [reflexivity |].
  destruct (is_nullish _); reflexivity.
Qed.

Lemma fetch_returned_sku_nonempty P env b sku r b' t v :
  readBlockConfig env b !! "sku" = Some sku ->
  decorate P env b = (r, b', t) ->
  fetch_returned env sku t v ->
  sku <> "".
Proof.
  intros Hsku Hrun [Hreq _] ->.
  rewrite (decorate_no_sku P env b (or_intror Hsku)) in Hrun.
  injection Hrun as _ _ <-. discriminate Hreq.
Qed.

(** C3. In every run of [decorate] in which the fetcher returns a product
    and rendering completes, exactly one event is emitted: it is named
    "product-spotlight/loaded" and carries [{sku, name, price}] of the
    product, where [price] is the product's
    [price_range.minimum_price.final_price.value] and [undefined] when
    that pricing data is absent.  A run that leaves the block in the
    ConfigError, NotFound or FetchError state emits no event. *)
Theorem decorate_emits_loaded_once P env b r b' t :
  decorate P env b = (r, b', t) ->
  (forall sku product container,
      readBlockConfig env b !! "sku" = Some sku ->
      fetch_returned env sku t product ->
      ToBoolean product = true ->
      decorate_container P env (default default_title (readBlockConfig env b !! "title"))
                         product (JObj (fetchPlaceholders env)) = Normal container ->
      r = Normal tt /\
      childNodes b' = [container] /\
      render_state b' = Some Rendered /\
      emitted t
      = [(loaded_event,
          JObj [("sku", own_property product "sku");
                ("name", own_property product "name");
                ("price", default JUndefined (read_path product final_price_value_path))])])
  /\ (render_state b' = Some ConfigError \/
      render_state b' = Some NotFound \/
      render_state b' = Some FetchError ->
      emitted t = []).
Proof.
  intros Hrun. split.
  - intros sku product container Hsku Hret T D.
    pose proof (fetch_returned_sku_nonempty _ _ _ _ _ _ _ _ Hsku Hrun Hret) as Hne.
    destruct (decorate_after_fetch P env b sku product r b' t Hsku Hne Hrun Hret)
      as (_ & -> & _ & K & E & _).
    unfold guarded_outcome in K, E. rewrite T, D in K, E. cbn in K, E.
    repeat split; auto.
    + now apply (decorate_container_rendered _ _ _ _ _ _ _ D).
    + rewrite E. unfold payload_of. now rewrite (payload_price _ T).
  - intros S.
    destruct (decorate_cases P env b) as [[_ H] | [(sku & _ & _ & _ & H) | H]].
    + rewrite H in Hrun. now injection Hrun as _ _ <-.
    + rewrite H in Hrun. now injection Hrun as _ _ <-.
    + destruct H as (sku & product & tf & _ & _ & _ & F & H).
      rewrite H in Hrun. injection Hrun as _ <- <-.
      destruct (fetchProductData_trace _ _ _ _ _ _ (F b)) as [_ Hem].
      cbn. rewrite emitted_app, Hem. cbn.
      unfold guarded_outcome in *. destruct (ToBoolean product); [| reflexivity].
      destruct (decorate_container _ _ _ _ _) as [container | e] eqn:D; [| reflexivity].
      exfalso. destruct (decorate_container_root _ _ _ _ _ _ D) as [kids ->].
      destruct S as [S | [S | S]]; discriminate S.
Qed.

(** ** Re-decoration *)

Lemma themed_idempotent token b cl kids :
  cl = themed token b ->
  themed token {| classList := cl; childNodes := kids |} = cl.
Proof.
  intros ->. unfold themed, mem_string. cbn.
  destruct (existsb (String.eqb token) (classList b)) eqn:M.
  - now rewrite M.
  - rewrite existsb_app. cbn. now rewrite String.eqb_refl, orb_true_r.
Qed.

(** C8. Decoration is idempotent: for every block, configuration and
    fixed behaviour of the collaborators, running [decorate] again on the
    block the first run left, with the same configuration, leaves the
    same children and the same class list (and completes and interacts in
    the same way). *)
Theorem decorate_idempotent P env b r1 b1 t1 r2 b2 t2 :
  decorate P env b = (r1, b1, t1) ->
  readBlockConfig env b1 = readBlockConfig env b ->
  decorate P env b1 = (r2, b2, t2) ->
  b2 = b1 /\ r2 = r1 /\ t2 = t1.
Proof.
  intros H1 Hcfg H2.
  destruct (decorate_cases P env b) as [[S A] | [(sku & S & Hne & W & A) | A]].
  - rewrite A in H1. injection H1 as <- <- <-.
    rewrite <- Hcfg in S. rewrite (decorate_no_sku P env _ S) in H2.
    now injection H2 as <- <- <-.
  - rewrite A in H1. injection H1 as <- <- <-.
    rewrite A in H2. now injection H2 as <- <- <-.
  - destruct A as (sku & product & tf & S & Hne & W & F & A).
    rewrite A in H1. injection H1 as <- <- <-.
    rewrite <- Hcfg in S, W.
    rewrite (decorate_fetched P env _ sku S Hne product tf W F) in H2.
    injection H2 as <- <- <-. rewrite !Hcfg.
    repeat split. f_equal. now apply themed_idempotent with (b := b).
Qed.

(** ** Malformed pricing data *)

Lemma call_toFixed_not_number P v f :
  (forall n, v <> JNum n) -> exists e, call_toFixed P v f = Throw e.
Proof.
  intros H. destruct v; cbn; try (now eexists). now destruct (H n).
Qed.

Lemma priceData_truthy_product product :
  ToBoolean (priceData_of product) = true -> ToBoolean product = true.
Proof.
  unfold priceData_of.
  destruct product; cbn; try discriminate; auto.
Qed.

Lemma createProductInfo_price_throws P product :
  ToBoolean (priceData_of product) = true ->
  lacks_final_price (priceData_of product) ->
  exists e, createProductInfo_price P product = Throw e.
Proof.
  intros T L. pose proof (priceData_truthy_product _ T) as Tp.
  unfold createProductInfo_price. rewrite (get_truthy _ _ Tp). cbn.
  fold (priceData_of product). rewrite T.
  rewrite !(get_truthy _ "final_price" T). cbn.
  destruct L as [N | N].
  - unfold get at 1. rewrite N. cbn. now eexists.
  - destruct (get (own_property _ "final_price") "currency") as [cur | e] eqn:G1;
      cbn; [| now eexists].
    assert (is_nullish (own_property (priceData_of product) "final_price") = false) as NN.
    { unfold get in G1. destruct (is_nullish _); [discriminate | reflexivity]. }
    unfold get at 1. rewrite NN. cbn.
    rewrite (get_truthy _ "regular_price" T). cbn.
    destruct (get (own_property _ "regular_price") "value") as [rv | e]; cbn; [| now eexists].
    destruct (ToString P cur) as [c | e]; cbn; [| now eexists].
    destruct (call_toFixed_not_number P _ 2%nat N) as [e ->]. cbn. now eexists.
Qed.

Lemma decorate_container_price_throws P env title product labels :
  ToBoolean (priceData_of product) = true ->
  lacks_final_price (priceData_of product) ->
  exists e, decorate_container P env title product labels = Throw e.
Proof.
  intros T L. rewrite decorate_container_eq.
  destruct (createProductImage _ _ _) as [c1 | e]; cbn; [| now eexists].
  unfold createProductInfo.
  destruct (get product "name") as [nm | e]; cbn; [| now eexists].
  destruct (set_textContent P _ nm) as [el | e]; cbn; [| now eexists].
  destruct (createProductInfo_price_throws P product T L) as [e ->]. cbn. now eexists.
Qed.

(** C9. For every fetched product whose [price_range.minimum_price] is
    present while its [final_price] is absent or has no numeric [value],
    building the view throws inside the guarded region of [decorate]: the
    exception is logged, [decorate] completes with the block showing the
    fixed "Error loading product" message (the FetchError state), and no
    analytics event is emitted. *)
Theorem decorate_malformed_price_is_fetch_error P env b sku product r b' t :
  readBlockConfig env b !! "sku" = Some sku ->
  decorate P env b = (r, b', t) ->
  fetch_returned env sku t product ->
  ToBoolean (priceData_of product) = true ->
  lacks_final_price (priceData_of product) ->
  (exists e,
      decorate_container P env (default default_title (readBlockConfig env b !! "title"))
                         product (JObj (fetchPlaceholders env)) = Throw e /\
      In (block_error_msg, e) (logged t)) /\
  r = Normal tt /\
  render_state b' = Some FetchError /\
  childNodes b' = [Markup fetch_error_html] /\
  emitted t = [].
Proof.
  intros Hsku Hrun Hret T L.
  pose proof (fetch_returned_sku_nonempty _ _ _ _ _ _ _ _ Hsku Hrun Hret) as Hne.
  destruct (decorate_after_fetch P env b sku product r b' t Hsku Hne Hrun Hret)
    as (_ & -> & _ & K & E & tf & ->).
  destruct (decorate_container_price_throws P env
              (default default_title (readBlockConfig env b !! "title"))
              product (JObj (fetchPlaceholders env)) T L) as [e D].
  unfold guarded_outcome in *.
  rewrite (priceData_truthy_product _ T), D in *. cbn in K, E.
  split; [| unfold render_state; rewrite K; auto].
  exists e. split; [reflexivity |].
  cbn [snd]. change (EFetchPlaceholders :: tf ++ [EConsoleError block_error_msg e])
    with ((EFetchPlaceholders :: tf) ++ [EConsoleError block_error_msg e]).
  rewrite logged_app. apply in_or_app. right. now left.
Qed.

(** ** The theme class *)

Lemma themed_In token b : In token (themed token b).
Proof.
  unfold themed, mem_string. destruct (existsb _ _) eqn:M.
  - apply existsb_exists in M as (x & Hx & E). apply String.eqb_eq in E. now subst.
  - apply in_or_app. right. now left.
Qed.


(** A run past validation either stops at [classList.add] or applies the
    theme class. *)
Lemma decorate_theme P env b sku r b' t :
  readBlockConfig env b !! "sku" = Some sku -> sku <> "" ->
  decorate P env b = (r, b', t) ->
  let theme := default default_theme (readBlockConfig env b !! "theme") in
  if has_whitespace theme
  then r = Throw (DOMException "InvalidCharacterError") /\ b' = b
  else r = Normal tt /\ classList b' = themed ("spotlight--" +:+ theme) b.
Proof.
  intros Hsku Hne Hrun theme. destruct (has_whitespace theme) eqn:W.
  - rewrite (decorate_bad_theme P env b sku Hsku Hne W) in Hrun.
    now injection Hrun as <- <- _.
  - destruct (fetchProductData_total env sku) as (v & tf & F).
    rewrite (decorate_fetched P env b sku Hsku Hne v tf W F) in Hrun.
    now injection Hrun as <- <- _.
Qed.


(** ** The shape of the view *)

Lemma descendants_Elem tag c attrs kids :
  descendants (Elem tag c attrs kids) = Elem tag c attrs kids :: all_nodes kids.
Proof.
  reflexivity.
Qed.

Lemma all_nodes_app l1 l2 : all_nodes (l1 ++ l2) = all_nodes l1 ++ all_nodes l2.
Proof. unfold all_nodes. apply flat_map_app. Qed.

Lemma all_nodes_cons n l : all_nodes (n :: l) = descendants n ++ all_nodes l.
Proof. reflexivity. Qed.

Lemma by_class_app cls l1 l2 : by_class cls (l1 ++ l2) = by_class cls l1 ++ by_class cls l2.
Proof. unfold by_class. now rewrite all_nodes_app, filter_app. Qed.

Lemma by_class_Elem cls tag c attrs kids rest :
  by_class cls (Elem tag c attrs kids :: rest)
  = (if String.eqb cls c then [Elem tag c attrs kids] else [])
      ++ by_class cls kids ++ by_class cls rest.
Proof.
  unfold by_class. rewrite all_nodes_cons, descendants_Elem, filter_app. cbn.
  destruct (String.eqb cls c); reflexivity.
Qed.

Lemma by_class_inert cls l : forallb inert l = true -> by_class cls l = [].
Proof.
  induction l as [| n rest IH]; [reflexivity |]. cbn. intros H.
  apply andb_prop in H as [Hn Hr]. specialize (IH Hr).
  destruct n; try discriminate; exact IH.
Qed.

Lemma by_tag_app tg l1 l2 : by_tag tg (l1 ++ l2) = by_tag tg l1 ++ by_tag tg l2.
Proof. unfold by_tag. now rewrite all_nodes_app, filter_app. Qed.

Lemma text_children_inert s : forallb inert (text_children s) = true.
Proof. unfold text_children. now destruct (String.eqb s ""). Qed.

Lemma parsed_children_inert s : forallb inert (parsed_children s) = true.
Proof. unfold parsed_children. now destruct (String.eqb s ""). Qed.

Lemma set_textContent_Elem P tag c attrs kids v el :
  set_textContent P (Elem tag c attrs kids) v = Normal el ->
  exists kids', el = Elem tag c attrs kids' /\ forallb inert kids' = true.
Proof.
  unfold set_textContent. destruct (is_nullish v).
  - intros [= <-]. now exists [].
  - destruct (ToString P v) as [s |]; [| discriminate]. intros [= <-].
    eexists. split; [reflexivity | apply text_children_inert].
Qed.

Lemma set_innerHTML_Elem P tag c attrs kids v el :
  set_innerHTML P (Elem tag c attrs kids) v = Normal el ->
  exists kids', el = Elem tag c attrs kids' /\ forallb inert kids' = true.
Proof.
  unfold set_innerHTML.
  assert (cbind (ToString P v)
            (fun s => Normal (set_childNodes (Elem tag c attrs kids) (parsed_children s)))
          = Normal el ->
          exists kids', el = Elem tag c attrs kids' /\ forallb inert kids' = true) as G.
  { destruct (ToString P v) as [s |]; [| discriminate]. intros [= <-].
    eexists. split; [reflexivity | apply parsed_children_inert]. }
  destruct v; try exact G. intros [= <-]. now exists [].
Qed.

Lemma set_attr_val_Elem P tag c attrs kids name v el :
  set_attr_val P (Elem tag c attrs kids) name v = Normal el ->
  exists s, el = Elem tag c (attrs ++ [(name, s)]) kids.
Proof.
  unfold set_attr_val. destruct (ToString P v) as [s |]; [| discriminate].
  intros [= <-]. now exists s.
Qed.

Lemma createProductImage_shape P product tag c attrs kids result :
  createProductImage P product (Elem tag c attrs kids) = Normal result ->
  exists inner,
    result = Elem tag c attrs (kids ++ [Elem "div" "spotlight__image-container" [] [inner]]) /\
    ((ToBoolean (get_opt (get_opt (own_property product "images") "0") "url") = true /\
      exists src alt, inner = Elem "img" "spotlight__image" [("src", src); ("alt", alt)] [])
     \/ (ToBoolean (get_opt (get_opt (own_property product "images") "0") "url") = false /\
         inner = image_placeholder)).
Proof.
  unfold createProductImage. unfold get at 1.
  destruct (is_nullish product) eqn:N; [discriminate |]. cbn [cbind].
  destruct (ToBoolean _) eqn:T.
  - unfold get at 1 4. rewrite N. cbn [cbind].
    destruct (get (own_property product "images") "0") as [first |]; [| discriminate].
    cbn [cbind].
    destruct (get first "url") as [url |]; [| discriminate]. cbn [cbind].
    destruct (set_attr_val P _ "src" url) as [img1 |] eqn:S1; [| discriminate]. cbn [cbind].
    apply set_attr_val_Elem in S1 as [src ->].
    destruct (get first "label") as [label |]; [| discriminate]. cbn [cbind].
    unfold get at 1. rewrite N. cbn [cbind].
    destruct (set_attr_val P _ "alt" _) as [img2 |] eqn:S2; [| discriminate]. cbn [cbind].
    apply set_attr_val_Elem in S2 as [alt ->].
    intros [= <-]. eexists. split; [reflexivity |]. left. split; [reflexivity |].
    now exists src, alt.
  - cbn. intros [= <-]. eexists. split; [reflexivity |]. right. now split.
Qed.

(** ** Prices *)

(** *** Decimal digits *)

Lemma decimal_digits_fuel f1 : forall f2 n,
  0 <= n -> n < 10 ^ Z.of_nat (S f1) -> n < 10 ^ Z.of_nat (S f2) ->
  decimal_digits (S f1) n = decimal_digits (S f2) n.
Proof.
  induction f1 as [| f1 IH]; intros f2 n H0 H1 H2.
  - change (10 ^ Z.of_nat 1) with 10 in H1.
    cbn [decimal_digits]. destruct (Z.ltb_spec n 10); [reflexivity | lia].
  - cbn [decimal_digits]. destruct (Z.ltb_spec n 10) as [L | L]; [reflexivity |].
    destruct f2 as [| f2].
    + change (10 ^ Z.of_nat 1) with 10 in H2. lia.
    + f_equal. apply (IH f2 (n / 10)).
      * apply Z.div_pos; lia.
      * apply Z.div_lt_upper_bound; [lia |].
        rewrite <- Z.pow_succ_r by lia. now rewrite <- Nat2Z.inj_succ.
      * apply Z.div_lt_upper_bound; [lia |].
        rewrite <- Z.pow_succ_r by lia. now rewrite <- Nat2Z.inj_succ.
Qed.

Lemma decimal_fuel_enough n : 0 <= n -> n < 10 ^ Z.of_nat (S (Z.to_nat (Z.log2 n))).
Proof.
  intros H. rewrite Nat2Z.inj_succ, Z2Nat.id by apply Z.log2_nonneg.
  destruct (Z.eq_dec n 0) as [-> | N]; [reflexivity |].
  destruct (Z.log2_spec n) as [_ U]; [lia |].
  eapply Z.lt_le_trans; [exact U |].
  apply Z.pow_le_mono_l. lia.
Qed.

Lemma decimal_digits_enough f n :
  0 <= n -> n < 10 ^ Z.of_nat (S f) -> decimal_digits (S f) n = decimal n.
Proof.
  intros H0 H1. unfold decimal. apply decimal_digits_fuel; auto using decimal_fuel_enough.
Qed.

Lemma decimal_small n : 0 <= n < 10 -> decimal n = String (digit_char n) "".
Proof.
  intros [H0 H1]. rewrite <- (decimal_digits_enough 0) by (change (10 ^ _) with 10; lia).
  cbn [decimal_digits]. destruct (Z.ltb_spec n 10); [| lia].
  now rewrite Z.mod_small by lia.
Qed.

Lemma decimal_step n :
  10 <= n -> decimal n = decimal (n / 10) +:+ String (digit_char (n mod 10)) "".
Proof.
  intros H. unfold decimal at 1. cbn [decimal_digits].
  destruct (Z.ltb_spec n 10); [lia |]. f_equal.
  assert (0 < Z.log2 n) as L by (apply Z.log2_pos; lia).
  destruct (Z.to_nat (Z.log2 n)) as [| f] eqn:E; [lia |].
  apply decimal_digits_enough.
  - apply Z.div_pos; lia.
  - apply Z.div_lt_upper_bound; [lia |].
    rewrite <- Z.pow_succ_r by lia. rewrite <- Nat2Z.inj_succ, <- E.
    apply decimal_fuel_enough. lia.
Qed.

Lemma append_String c a b : String c a +:+ b = String c (a +:+ b).
Proof. reflexivity. Qed.

Lemma length_append a b : String.length (a +:+ b) = (String.length a + String.length b)%nat.
Proof.
  induction a as [| c a IH]; [reflexivity |].
  rewrite append_String. cbn [String.length]. now rewrite IH.
Qed.

Lemma substring_all b : substring 0 (String.length b) b = b.
Proof. induction b as [| c b IH]; cbn; [reflexivity | now rewrite IH]. Qed.

Lemma substring_prefix a b : substring 0 (String.length a) (a +:+ b) = a.
Proof.
  induction a as [| c a IH].
  - now destruct b.
  - rewrite append_String. cbn [String.length substring]. now rewrite IH.
Qed.

Lemma substring_suffix a b m : substring (String.length a) m (a +:+ b) = substring 0 m b.
Proof.
  induction a as [| c a IH]; [reflexivity |].
  rewrite append_String. cbn [String.length substring]. exact IH.
Qed.

(** *** Two decimal places *)

Lemma hundredths_nonneg x : (0 <= x)%Q -> 0 <= hundredths x.
Proof.
  intros H. unfold hundredths. change 0 with (Qfloor 0). apply Qfloor_resp_le.
  apply Qle_trans with (x * 100)%Q.
  - apply Qmult_le_0_compat; [exact H | discriminate].
  - rewrite <- (Qplus_0_r (x * 100)) at 1. apply Qplus_le_r. discriminate.
Qed.

Lemma fixed_digits_2 x :
  (0 <= x)%Q ->
  fixed_digits 2 x
  = decimal (hundredths x / 100) +:+ "."
      +:+ String (digit_char ((hundredths x / 10) mod 10))
            (String (digit_char (hundredths x mod 10)) "").
Proof.
  intros H. pose proof (hundredths_nonneg x H) as N.
  unfold fixed_digits. change (Qfloor _) with (hundredths x).
  set (n := hundredths x) in *. clearbody n.
  destruct (Z_lt_le_dec n 10) as [L1 | L1].
  - rewrite (decimal_small n) by lia.
    rewrite Z.div_small, (Z.div_small n 10), Z.mod_0_l, (Z.mod_small n 10) by lia.
    reflexivity.
  - rewrite (decimal_step n L1).
    destruct (Z_lt_le_dec n 100) as [L2 | L2].
    + assert (0 <= n / 10 < 10) as B
          by (split; [apply Z.div_pos; lia | apply Z.div_lt_upper_bound; lia]).
      rewrite (decimal_small (n / 10) B).
      rewrite (Z.div_small n 100), (Z.mod_small (n / 10) 10) by lia. reflexivity.
    + rewrite (decimal_step (n / 10)).
      2:{ apply Z.div_le_lower_bound; lia. }
      rewrite Z.div_div by lia. change (10 * 10) with 100.
      assert (String.length (decimal (n / 100)) <> 0%nat) as NE.
      { destruct (Z_lt_le_dec (n / 100) 10).
        - rewrite decimal_small; [discriminate |].
          split; [apply Z.div_pos; lia | lia].
        - rewrite decimal_step by lia. rewrite length_append. cbn. lia. }
      set (a := decimal (n / 100)) in *. clearbody a.
      set (d1 := digit_char ((n / 10) mod 10)). set (d0 := digit_char (n mod 10)).
      assert (((a +:+ String d1 "") +:+ String d0 "") = a +:+ String d1 (String d0 "")) as ->.
      { clear. induction a as [| c a IH]; [reflexivity |].
        rewrite !append_String. now rewrite IH. }
      rewrite length_append. cbn [String.length].
      replace (String.length a + 2 <=? 2)%nat with false
        by (symmetry; apply Nat.leb_gt; lia).
      rewrite ?length_append. cbn [String.length].
      replace (String.length a + 2 - 2)%nat with (String.length a) by lia.
      rewrite substring_prefix, substring_suffix. reflexivity.
Qed.

(** The integer used is the nearest hundredth, the larger on a tie. *)
Lemma hundredths_nearest x :
  (inject_Z (hundredths x) - (1 # 2) <= x * 100)%Q /\
  (x * 100 < inject_Z (hundredths x) + (1 # 2))%Q.
Proof.
  unfold hundredths. pose proof (Qfloor_le (x * 100 + (1 # 2))) as L.
  pose proof (Qlt_floor (x * 100 + (1 # 2))) as U.
  set (n := Qfloor _) in *. clearbody n.
  rewrite inject_Z_plus in U. change (inject_Z 1) with 1%Q in U.
  split; lra.
Qed.

(** Below 10^21 [toFixed(2)] prints the value to two decimal places. *)
Lemma Number_toFixed_below P x :
  (Qabs x < inject_Z (10 ^ 21))%Q ->
  Number_toFixed P (NFin x) 2 = two_decimals x.
Proof.
  intros H. unfold Number_toFixed, two_decimals.
  destruct (Qle_bool (inject_Z (10 ^ 21)) (Qabs x)) eqn:B.
  - apply Qle_bool_iff in B. exfalso. exact (Qlt_not_le _ _ H B).
  - now rewrite (fixed_digits_2 (Qabs x) (Qabs_nonneg x)).
Qed.

Lemma text_children_spaced c x :
  text_children (c +:+ " " +:+ x) = [Text (c +:+ " " +:+ x)].
Proof. unfold text_children. now destruct c. Qed.

Lemma js_lt_numbers P f r :
  js_lt P (JNum (NFin f)) (JNum (NFin r)) = Normal (negb (Qle_bool r f)).
Proof. reflexivity. Qed.

Lemma read_path_cons v k rest w :
  read_path v (k :: rest) = Some w ->
  is_nullish v = false /\ read_path (own_property v k) rest = Some w.
Proof. cbn. destruct (is_nullish v); [discriminate | auto]. Qed.

(** What the price part builds from well-formed pricing data. *)
Lemma createProductInfo_price_wellformed P product cur c f r :
  read_path product final_price_currency_path = Some cur ->
  read_path product final_price_value_path = Some (JNum (NFin f)) ->
  read_path product regular_price_value_path = Some (JNum (NFin r)) ->
  ToString P cur = Normal c ->
  (Qabs f < inject_Z (10 ^ 21))%Q ->
  (f < r -> Qabs r < inject_Z (10 ^ 21))%Q ->
  createProductInfo_price P product
  = Normal (Elem "div" "spotlight__price-container" []
              ((if Qle_bool r f then [] else [original_price_element c r])
                 ++ [price_element c f])).
Proof.
  intros Hc Hf Hr Hs Bf Br.
  apply read_path_cons in Hc as (N0 & Hc). apply read_path_cons in Hc as (N1 & Hc).
  apply read_path_cons in Hc as (N2 & Hc). apply read_path_cons in Hc as (N3 & Hc).
  injection Hc as Hc.
  apply read_path_cons in Hf as (_ & Hf). apply read_path_cons in Hf as (_ & Hf).
  apply read_path_cons in Hf as (_ & Hf). apply read_path_cons in Hf as (_ & Hf).
  injection Hf as Hf.
  apply read_path_cons in Hr as (_ & Hr). apply read_path_cons in Hr as (_ & Hr).
  apply read_path_cons in Hr as (_ & Hr). apply read_path_cons in Hr as (N4 & Hr).
  injection Hr as Hr.
  set (pr := own_property product "price_range") in *.
  set (pd := own_property pr "minimum_price") in *.
  assert (ToBoolean pd = true) as T.
  { destruct pd; cbn in N3 |- *; try discriminate; try reflexivity. }
  unfold createProductInfo_price, get. rewrite N0. cbn [cbind]. fold pr.
  unfold get_opt. rewrite N1. fold pd. rewrite T, N2. cbn [cbind]. rewrite N3. cbn [cbind].
  rewrite Hc, Hf. rewrite N4. cbn [cbind]. rewrite Hr, Hs. cbn [cbind call_toFixed].
  rewrite (Number_toFixed_below P f Bf). unfold set_textContent at 1.
  cbn [is_nullish ToString cbind set_childNodes set_className createElement].
  rewrite text_children_spaced, js_lt_numbers. cbn [cbind].
  destruct (Qle_bool r f) eqn:B; cbn [negb].
  - reflexivity.
  - rewrite (Number_toFixed_below P r).
    + unfold set_textContent.
      cbn [is_nullish ToString cbind set_childNodes set_className createElement].
      rewrite text_children_spaced. reflexivity.
    + apply Br. apply Qnot_le_lt. intros L. apply Qle_bool_iff in L. congruence.
Qed.


(** The info region: name, price container, the description when the
    product has one, and the actions. *)
Lemma createProductInfo_shape P env product labels tag c attrs kids result :
  createProductInfo P env product labels (Elem tag c attrs kids) = Normal result ->
  exists nameKids pc desc actions,
    createProductInfo_price P product = Normal pc /\
    forallb inert nameKids = true /\
    ((ToBoolean (get_opt (own_property product "short_description") "html") = false /\
      desc = [])
     \/ (ToBoolean (get_opt (own_property product "short_description") "html") = true /\
         exists dk, forallb inert dk = true /\
                    desc = [Elem "div" "spotlight__description" [] dk])) /\
    actions_shape actions /\
    result = Elem tag c attrs
               (kids ++ [Elem "div" "spotlight__info" []
                           ([Elem "h2" "spotlight__name" [] nameKids; pc]
                              ++ desc ++ [actions])]).
Proof.
  unfold createProductInfo. unfold get at 1.
  destruct (is_nullish product) eqn:N; [discriminate |]. cbn [cbind].
  destruct (set_textContent P _ (own_property product "name")) as [ne |] eqn:S1;
    [| discriminate].
  apply set_textContent_Elem in S1 as (nameKids & -> & I1). cbn [cbind].
  destruct (createProductInfo_price P product) as [pc |]; [| discriminate]. cbn [cbind].
  unfold get at 1. rewrite N. cbn [cbind].
  match goal with
  | |- cbind ?m _ = _ -> _ => destruct m as [info1 |] eqn:Hm; [| discriminate]
  end.
  assert (exists desc,
             ((ToBoolean (get_opt (own_property product "short_description") "html") = false /\
               desc = [])
              \/ (ToBoolean (get_opt (own_property product "short_description") "html") = true /\
                  exists dk, forallb inert dk = true /\
                             desc = [Elem "div" "spotlight__description" [] dk])) /\
             info1 = Elem "div" "spotlight__info" []
                       ([Elem "h2" "spotlight__name" [] nameKids; pc] ++ desc))
    as (desc & Hd & ->).
  { revert Hm. destruct (ToBoolean _) eqn:T.
    - unfold get at 1. rewrite N. cbn [cbind].
      destruct (get (own_property product "short_description") "html") as [html |];
        [| discriminate]. cbn [cbind].
      destruct (set_innerHTML P _ html) as [de |] eqn:S2; [| discriminate].
      apply set_innerHTML_Elem in S2 as (dk & -> & I2). intros [= <-].
      exists [Elem "div" "spotlight__description" [] dk]. split; [| reflexivity].
      right. split; [reflexivity |]. now exists dk.
    - intros [= <-]. exists []. split; [now left | reflexivity]. }
  cbn [cbind].
  destruct (get labels "Global") as [g |]; [| discriminate]. cbn [cbind].
  unfold get. rewrite N. cbn [cbind].
  destruct (ToString P (own_property product "url_key")) as [uk |]; [| discriminate].
  cbn [cbind].
  destruct (ToString P (own_property product "sku")) as [sk |]; [| discriminate].
  cbn. intros [= <-].
  exists nameKids, pc, desc. eexists. split; [reflexivity |]. split; [exact I1 |].
  split; [exact Hd |]. split; [do 3 eexists; reflexivity |].
  reflexivity.
Qed.

(** The rendered container: the title when there is one, then the content
    wrapper with the image region and the info region. *)
Lemma decorate_container_shape P env title product labels container :
  decorate_container P env title product labels = Normal container ->
  exists inner nameKids pc desc actions,
    createProductInfo_price P product = Normal pc /\
    ((ToBoolean (get_opt (get_opt (own_property product "images") "0") "url") = true /\
      exists src alt, inner = Elem "img" "spotlight__image" [("src", src); ("alt", alt)] [])
     \/ (ToBoolean (get_opt (get_opt (own_property product "images") "0") "url") = false /\
         inner = image_placeholder)) /\
    forallb inert nameKids = true /\
    ((ToBoolean (get_opt (own_property product "short_description") "html") = false /\
      desc = [])
     \/ (ToBoolean (get_opt (own_property product "short_description") "html") = true /\
         exists dk, forallb inert dk = true /\
                    desc = [Elem "div" "spotlight__description" [] dk])) /\
    actions_shape actions /\
    container
    = Elem "div" "spotlight__container" []
        (title_nodes title
           ++ [Elem "div" "spotlight__content" []
                 [Elem "div" "spotlight__image-container" [] [inner];
                  Elem "div" "spotlight__info" []
                    ([Elem "h2" "spotlight__name" [] nameKids; pc] ++ desc ++ [actions])]]).
Proof.
  rewrite decorate_container_eq.
  destruct (createProductImage _ _ _) as [c1 |] eqn:I; [| discriminate]. cbn [cbind].
  apply createProductImage_shape in I as (inner & -> & Hi).
  destruct (createProductInfo _ _ _ _ _) as [c2 |] eqn:F; [| discriminate]. cbn [cbind].
  apply createProductInfo_shape in F as (nameKids & pc & desc & actions & Hp & Hn & Hd & Ha & ->).
  intros [= <-]. exists inner, nameKids, pc, desc, actions. repeat split; auto.
Qed.

Ltac eval_eqb :=
  repeat match goal with
         | |- context [String.eqb ?a ?b] =>
             let v := eval vm_compute in (String.eqb a b) in
             progress change (String.eqb a b) with v
         end.

Ltac by_class_steps :=
  repeat first
    [ rewrite by_class_app
    | rewrite by_class_Elem
    | rewrite by_class_inert by (assumption || reflexivity) ];
  eval_eqb; cbn [app].



(** ** The title *)


(** The price elements of a rendered container are those of its price
    container. *)
Lemma rendered_price_elements P env title product labels container pc cls :
  cls = "spotlight__price" \/ cls = "spotlight__price-original" ->
  decorate_container P env title product labels = Normal container ->
  createProductInfo_price P product = Normal pc ->
  by_class cls [container] = by_class cls [pc].
Proof.
  intros Hcls D Hpc.
  apply decorate_container_shape in D
    as (inner & nameKids & pc' & desc & actions & Hp & Hi & Hn & Hd & (w1 & w2 & w3 & ->) & ->).
  rewrite Hpc in Hp. injection Hp as <-.
  assert (by_class cls [inner] = []) as Ei.
  { destruct Hi as [(_ & src & alt & ->) | (_ & ->)]; destruct Hcls as [-> | ->]; reflexivity. }
  assert (by_class cls desc = []) as Ed.
  { destruct Hd as [(_ & ->) | (_ & dk & Hk & ->)]; [reflexivity |].
    destruct Hcls as [-> | ->]; by_class_steps; reflexivity. }
  assert (by_class cls (title_nodes title) = []) as Et.
  { unfold title_nodes. destruct (_ && _); destruct Hcls as [-> | ->]; reflexivity. }
  rewrite by_class_Elem, by_class_app, Et.
  rewrite by_class_Elem, by_class_Elem.
  change [Elem "h2" "spotlight__name" [] nameKids; pc]
    with ([Elem "h2" "spotlight__name" [] nameKids] ++ [pc]).
  rewrite Ei, by_class_Elem, !by_class_app, Ed.
  destruct Hcls as [-> | ->]; by_class_steps; now rewrite !app_nil_r.
Qed.

Lemma Qle_bool_false_lt r f : Qle_bool r f = false <-> (f < r)%Q.
Proof.
  split.
  - intros B. apply Qnot_le_lt. intros L. apply Qle_bool_iff in L. congruence.
  - intros L. destruct (Qle_bool r f) eqn:B; [| reflexivity].
    apply Qle_bool_iff in B. exfalso. exact (Qlt_not_le _ _ L B).
Qed.

(** C5, as amended. For every product whose [price_range.minimum_price]
    is present and well formed, that is with a [final_price] whose
    [currency] prints as text and whose [value] is a finite number below
    10^21 in magnitude, and a [regular_price] with such a [value]: the
    price container is built and its final-price element reads
    "<CURRENCY> <value to 2 decimal places>"; when the final value is
    below the regular one, an original-price element showing the regular
    price comes first and the final price second; when the two values are
    equal there is no original-price element; and a rendered container
    holds these price elements and no others. *)
Theorem createProductInfo_price_rendering P product cur c f r :
  read_path product final_price_currency_path = Some cur ->
  read_path product final_price_value_path = Some (JNum (NFin f)) ->
  read_path product regular_price_value_path = Some (JNum (NFin r)) ->
  ToString P cur = Normal c ->
  (Qabs f < inject_Z (10 ^ 21))%Q ->
  (Qabs r < inject_Z (10 ^ 21))%Q ->
  exists kids,
    createProductInfo_price P product
    = Normal (Elem "div" "spotlight__price-container" [] kids) /\
    by_class "spotlight__price" kids = [price_element c f] /\
    ((f < r)%Q -> kids = [original_price_element c r; price_element c f]) /\
    ((f == r)%Q -> kids = [price_element c f] /\
                   by_class "spotlight__price-original" kids = []) /\
    (forall env title labels container,
        decorate_container P env title product labels = Normal container ->
        by_class "spotlight__price" [container] = [price_element c f] /\
        by_class "spotlight__price-original" [container]
        = by_class "spotlight__price-original" kids).
Proof.
  intros Hc Hf Hr Hs Bf Br.
  pose proof (createProductInfo_price_wellformed P product cur c f r Hc Hf Hr Hs Bf
                (fun _ => Br)) as E.
  eexists. split; [exact E |].
  assert (by_class "spotlight__price"
            ((if Qle_bool r f then [] else [original_price_element c r])
               ++ [price_element c f]) = [price_element c f]) as Ep.
  { destruct (Qle_bool r f); reflexivity. }
  split; [exact Ep |]. split; [| split].
  - intros L. apply Qle_bool_false_lt in L. now rewrite L.
  - intros Q. assert (Qle_bool r f = true) as ->.
    { apply Qle_bool_iff. rewrite Q. apply Qle_refl. }
    split; reflexivity.
  - intros env title labels container D. split.
    + rewrite (rendered_price_elements P env title product labels container _ _
                 (or_introl eq_refl) D E).
      rewrite by_class_Elem. eval_eqb. cbn [app]. now rewrite Ep, app_nil_r.
    + rewrite (rendered_price_elements P env title product labels container _ _
                 (or_intror eq_refl) D E).
      rewrite by_class_Elem. eval_eqb. cbn [app]. now rewrite app_nil_r.
Qed.

(** ** The end-to-end example *)

Lemma fetchProductData_first_product env sku first rest :
  ToBoolean first = true ->
  fetch env (product_request env sku) = Responds (JsonOk (products_response first rest)) ->
  forall b, fetchProductData env sku b = (Normal first, b, [EFetch (product_request env sku)]).
Proof.
  intros T H b. rewrite (fetchProductData_parsed _ _ _ _ H). cbn.
  unfold js_or. now rewrite T.
Qed.

Lemma mug_container P env :
  exists w1 w2 w3,
    decorate_container P env default_title mug (JObj (fetchPlaceholders env))
    = Normal
        (Elem "div" "spotlight__container" []
           [Elem "div" "spotlight__content" []
              [Elem "div" "spotlight__image-container" [] [image_placeholder];
               Elem "div" "spotlight__info" []
                 [Elem "h2" "spotlight__name" [] [Text "Test Mug"];
                  Elem "div" "spotlight__price-container" []
                    [Elem "span" "spotlight__price" [] [Text "USD 15.00"]];
                  Elem "div" "spotlight__actions" []
                    [Elem "div" "spotlight__add-to-cart" [] [Mounted w1];
                     Elem "div" "spotlight__view-product" [] [Mounted w2];
                     Elem "div" "spotlight__wishlist" [] [Mounted w3]]]]]).
Proof. do 3 eexists. reflexivity. Qed.

(** C7. For the configuration [{sku: "24-MB01", theme: "dark"}] and a
    backend response whose first product is the Test Mug (final and
    regular price 15 USD, no images), [decorate] renders the product: the
    block has the class "spotlight--dark", holds the "No Image Available"
    placeholder and no [img] element, shows the price text "USD 15.00",
    and has no original-price and no description element. *)
Theorem decorate_mug_example P env b rest :
  readBlockConfig env b = mug_config ->
  fetch env (product_request env "24-MB01") = Responds (JsonOk (products_response mug rest)) ->
  exists b' t,
    decorate P env b = (Normal tt, b', t) /\
    render_state b' = Some Rendered /\
    In "spotlight--dark" (classList b') /\
    by_class "spotlight__image-placeholder" (childNodes b') = [image_placeholder] /\
    by_tag "img" (childNodes b') = [] /\
    by_class "spotlight__price" (childNodes b')
    = [Elem "span" "spotlight__price" [] [Text "USD 15.00"]] /\
    by_class "spotlight__price-original" (childNodes b') = [] /\
    by_class "spotlight__description" (childNodes b') = [].
Proof.
  intros Hcfg Hfetch.
  assert (readBlockConfig env b !! "sku" = Some "24-MB01") as Hsku
      by (rewrite Hcfg; reflexivity).
  assert (readBlockConfig env b !! "theme" = Some "dark") as Htheme
      by (rewrite Hcfg; reflexivity).
  assert (readBlockConfig env b !! "title" = None) as Htitle
      by (rewrite Hcfg; reflexivity).
  pose proof (fetchProductData_first_product env "24-MB01" mug rest eq_refl Hfetch) as F.
  assert ("24-MB01" <> "") as Hne by discriminate.
  assert (has_whitespace (default default_theme (readBlockConfig env b !! "theme")) = false) as W
      by (rewrite Htheme; reflexivity).
  pose proof (decorate_fetched P env b "24-MB01" Hsku Hne mug _ W F) as Hrun.
  rewrite Htheme, Htitle in Hrun.
  destruct (mug_container P env) as (w1 & w2 & w3 & D).
  unfold guarded_outcome in Hrun.
  change (default default_title None) with default_title in Hrun.
  rewrite D in Hrun. cbn [ToBoolean mug fst snd] in Hrun.
  do 2 eexists. split; [exact Hrun |].
  cbn [childNodes classList]. repeat split; try reflexivity.
  apply themed_In.
Qed.

(* ===================================================================== *)
(** * Concrete runs                                                       *)
(* ===================================================================== *)

Lemma decorate_missing_sku_witness :
  exists b' t,
    decorate sample_platform (sample_env (<["title" := "Staff Pick"]> ∅) offline) sample_block
    = (Normal tt, b', t) /\
    render_state b' = Some ConfigError /\
    childNodes b' = [Markup config_error_html] /\
    classList b' = classList sample_block /\
    requests t = [] /\
    t = [EFetchPlaceholders].
Proof.
  apply decorate_missing_sku_is_config_error. left. reflexivity.
Defined.


Lemma mug_run_fetch_returned :
  fetch_returned mug_env "24-MB01" (snd (decorate sample_platform mug_env sample_block)) mug.
Proof.
  split; [reflexivity |]. intros b. eexists. reflexivity.
Defined.

Lemma decorate_emits_loaded_once_witness :
  emitted (snd (decorate sample_platform mug_env sample_block))
  = [(loaded_event,
      JObj [("sku", JStr "24-MB01"); ("name", JStr "Test Mug"); ("price", JNum (NFin 15))])].
Proof.
  destruct (mug_container sample_platform mug_env) as (w1 & w2 & w3 & D).
  refine (proj2 (proj2 (proj2
    (proj1 (decorate_emits_loaded_once sample_platform mug_env sample_block _ _ _ eq_refl)
       "24-MB01" mug _ eq_refl mug_run_fetch_returned eq_refl D)))).
Defined.

Lemma decorate_null_product_witness :
  render_state (snd (fst (decorate sample_platform empty_catalog_env sample_block)))
  = Some NotFound /\
  emitted (snd (decorate sample_platform empty_catalog_env sample_block)) = [].
Proof.
  assert (fetch_returned empty_catalog_env "24-MB01"
            (snd (decorate sample_platform empty_catalog_env sample_block)) JNull) as R.
  { split; [reflexivity |]. intros b. eexists. reflexivity. }
  assert ("24-MB01" <> "") as Hne by discriminate.
  destruct (decorate_null_product_is_not_found sample_platform empty_catalog_env sample_block
              "24-MB01" _ _ _ eq_refl Hne eq_refl R) as (_ & S & _ & E).
  split; [exact S | exact E].
Defined.

Lemma below_limit_80 : (Qabs 80 < inject_Z (10 ^ 21))%Q.
Proof. reflexivity. Qed.

Lemma below_limit_100 : (Qabs 100 < inject_Z (10 ^ 21))%Q.
Proof. reflexivity. Qed.

Lemma createProductInfo_price_rendering_witness :
  createProductInfo_price sample_platform discounted
  = Normal (Elem "div" "spotlight__price-container" []
              [Elem "span" "spotlight__price-original" [] [Text "USD 100.00"];
               Elem "span" "spotlight__price" [] [Text "USD 80.00"]]).
Proof.
  destruct (createProductInfo_price_rendering sample_platform discounted
              (JStr "USD") "USD" 80 100 eq_refl eq_refl eq_refl eq_refl
              below_limit_80 below_limit_100) as (kids & E & _ & L & _).
  rewrite E. rewrite (L eq_refl). reflexivity.
Defined.

Lemma createProductInfo_price_counterexample :
  (ToBoolean (priceData_of no_final_price) = true /\
   createProductInfo_price sample_platform no_final_price
   = Throw (TypeError "Cannot read properties of undefined or null (reading currency)") /\
   by_class "spotlight__price"
     (childNodes
        (snd (fst (decorate sample_platform
                     (sample_env mug_config (answers (products_response no_final_price [])))
                     sample_block)))) = []) /\
  (ToBoolean (priceData_of infinite_price) = true /\
   createProductInfo_price sample_platform infinite_price
   = Normal (Elem "div" "spotlight__price-container" []
               [Elem "span" "spotlight__price" [] [Text "USD Infinity"]])).
Proof. repeat split. Qed.


Lemma decorate_mug_example_witness :
  exists b' t,
    decorate sample_platform mug_env sample_block = (Normal tt, b', t) /\
    render_state b' = Some Rendered /\
    In "spotlight--dark" (classList b') /\
    by_class "spotlight__image-placeholder" (childNodes b') = [image_placeholder] /\
    by_tag "img" (childNodes b') = [] /\
    by_class "spotlight__price" (childNodes b')
    = [Elem "span" "spotlight__price" [] [Text "USD 15.00"]] /\
    by_class "spotlight__price-original" (childNodes b') = [] /\
    by_class "spotlight__description" (childNodes b') = [].
Proof.
  exact (decorate_mug_example sample_platform mug_env sample_block [] eq_refl eq_refl).
Defined.

Lemma decorate_idempotent_witness :
  let first := decorate sample_platform mug_env sample_block in
  let second := decorate sample_platform mug_env (snd (fst first)) in
  snd (fst second) = snd (fst first) /\
  fst (fst second) = fst (fst first) /\
  snd second = snd first.
Proof.
  exact (decorate_idempotent sample_platform mug_env sample_block
           _ _ _ _ _ _ eq_refl eq_refl eq_refl).
Defined.

Lemma decorate_malformed_price_witness :
  render_state (snd (fst (decorate sample_platform no_final_price_env sample_block)))
  = Some FetchError /\
  emitted (snd (decorate sample_platform no_final_price_env sample_block)) = [].
Proof.
  assert (fetch_returned no_final_price_env "24-MB01"
            (snd (decorate sample_platform no_final_price_env sample_block))
            no_final_price) as R.
  { split; [reflexivity |]. intros b. eexists. reflexivity. }
  assert (lacks_final_price (priceData_of no_final_price)) as L by (left; reflexivity).
  destruct (decorate_malformed_price_is_fetch_error sample_platform no_final_price_env
              sample_block "24-MB01" no_final_price _ _ _ eq_refl eq_refl R eq_refl L)
    as (_ & _ & S & _ & E).
  split; [exact S | exact E].
Defined.



(* ===================================================================== *)
(** * Further properties of the fetcher                                   *)
(* ===================================================================== *)

(** X1. The request headers are the fixed content type merged with the
    headers configured under [headers.cs]: without such a configuration
    only the content type is sent; with one, every configured header is
    sent with its configured value (a configured "Content-Type" replaces
    the fixed one), the content type is "application/json" when none is
    configured, and no other header is sent. *)
Theorem product_request_headers env sku :
  let cs := get_opt (getConfigValue env "headers") "cs" in
  let sent := req_headers (product_request env sku) in
  (ToBoolean cs = false -> sent = [("Content-Type", JStr "application/json")]) /\
  (forall fields,
      cs = JObj fields ->
      (forall k v, assoc_last fields k = Some v -> assoc_last sent k = Some v) /\
      (assoc_last fields "Content-Type" = None ->
       assoc_last sent "Content-Type" = Some (JStr "application/json")) /\
      (forall k, k <> "Content-Type" -> assoc_last fields k = None ->
                 assoc_last sent k = None)).
Proof.
  cbn zeta. unfold product_request. cbn [req_headers]. split.
  - intros F. unfold js_or. now rewrite F.
  - intros fields ->. cbn [js_or ToBoolean spread]. repeat split.
    + intros k v H. cbn [assoc_last]. now rewrite H.
    + intros H. cbn [assoc_last]. now rewrite H.
    + intros k N H. cbn [assoc_last]. rewrite H.
      destruct (String.eqb_spec "Content-Type" k); [congruence | reflexivity].
Qed.

Lemma product_request_headers_witness :
  assoc_last (req_headers (product_request (configured_env offline) "24-MB01"))
             "Magento-Store-Code" = Some (JStr "main") /\
  assoc_last (req_headers (product_request (configured_env offline) "24-MB01"))
             "Content-Type" = Some (JStr "application/json").
Proof.
  destruct (proj2 (product_request_headers (configured_env offline) "24-MB01")
              _ eq_refl) as (A & B & _).
  split; [apply A; reflexivity | apply B; reflexivity].
Defined.



(** X3. When the body parses and holds a product list under
    [data.products], the result is the first entry of the list when that
    entry is truthy and [null] otherwise, in particular [null] for the
    empty list; the entries after the first are never consulted, and
    nothing is logged. *)
Theorem fetchProductData_first_entry env sku b data items :
  fetch env (product_request env sku) = Responds (JsonOk data) ->
  read_path data products_path = Some (JArr items) ->
  fetchProductData env sku b
  = (Normal match items with
            | [] => JNull
            | first :: _ => if ToBoolean first then first else JNull
            end,
     b, [EFetch (product_request env sku)]).
Proof.
  intros H R.
  apply read_path_cons in R as (N0 & R). apply read_path_cons in R as (N1 & R).
  injection R as R.
  rewrite (fetchProductData_parsed _ _ _ _ H). unfold get. rewrite N0.
  unfold get_opt at 2. rewrite N1, R.
  destruct items as [| first rest]; [reflexivity |].
  cbn. unfold js_or. reflexivity.
Qed.

Lemma fetchProductData_first_entry_witness :
  fetchProductData (configured_env (answers (products_response mug [discounted])))
                   "24-MB01" sample_block
  = (Normal mug, sample_block,
     [EFetch (product_request
                (configured_env (answers (products_response mug [discounted])))
                "24-MB01")]).
Proof.
  exact (fetchProductData_first_entry
           (configured_env (answers (products_response mug [discounted])))
           "24-MB01" sample_block _ [mug; discounted] eq_refl eq_refl).
Defined.

(** X4. A body that parses to something other than [null] and has no
    [data], or no [products] under it, yields [null] without anything
    being logged: to the caller a response of another shape looks like an
    empty catalog. *)
Theorem fetchProductData_other_shape env sku b data :
  fetch env (product_request env sku) = Responds (JsonOk data) ->
  is_nullish data = false ->
  is_nullish (get_opt (own_property data "data") "products") = true ->
  fetchProductData env sku b = (Normal JNull, b, [EFetch (product_request env sku)]) /\
  logged [EFetch (product_request env sku)] = [].
Proof.
  intros H N0 N1. split; [| reflexivity].
  rewrite (fetchProductData_parsed _ _ _ _ H). unfold get. rewrite N0.
  unfold get_opt at 1. rewrite N1. reflexivity.
Qed.

Lemma fetchProductData_other_shape_witness :
  fetchProductData
    (configured_env (answers (JObj [("errors", JArr [JStr "Unauthorized"])])))
    "24-MB01" sample_block
  = (Normal JNull, sample_block,
     [EFetch (product_request
                (configured_env (answers (JObj [("errors", JArr [JStr "Unauthorized"])])))
                "24-MB01")]).
Proof.
  exact (proj1 (fetchProductData_other_shape
                  (configured_env (answers (JObj [("errors", JArr [JStr "Unauthorized"])])))
                  "24-MB01" sample_block _ eq_refl eq_refl eq_refl)).
Defined.

(* ===================================================================== *)
(** * Further properties of the orchestrator                              *)
(* ===================================================================== *)

(** The two traces a call of the fetcher can leave. *)
Lemma fetchProductData_trace_cases env sku b product tf :
  fetchProductData env sku b = (Normal product, b, tf) ->
  tf = [EFetch (product_request env sku)] \/
  (product = JNull /\
   exists e, tf = [EFetch (product_request env sku); EConsoleError fetch_error_msg e]).
Proof.
  destruct (fetch env (product_request env sku)) as [[data | e] | e] eqn:H.
  - rewrite (fetchProductData_parsed _ _ _ _ H).
    destruct (get data "data") as [d | e]; intros [= <- <-]; [now left |].
    right. split; [reflexivity | now exists e].
  - rewrite (fetchProductData_unparsable _ _ _ _ H). intros [= <- <-].
    right. split; [reflexivity | now exists e].
  - rewrite (fetchProductData_rejected _ _ _ _ H). intros [= <- <-].
    right. split; [reflexivity | now exists e].
Qed.

Lemma guarded_outcome_cases P env title product :
  (ToBoolean product = false /\
   guarded_outcome P env title product = ([Markup not_found_html], []))
  \/ (ToBoolean product = true /\
      exists e, guarded_outcome P env title product
                = ([Markup fetch_error_html], [EConsoleError block_error_msg e]))
  \/ (ToBoolean product = true /\
      exists kids, guarded_outcome P env title product
                   = ([Elem "div" "spotlight__container" [] kids],
                      [EEmit loaded_event (payload_of product)])).
Proof.
  unfold guarded_outcome. destruct (ToBoolean product); [| now left].
  right. destruct (decorate_container _ _ _ _ _) as [container | e] eqn:D.
  - right. split; [reflexivity |].
    destruct (decorate_container_root _ _ _ _ _ _ D) as [kids ->]. now exists kids.
  - left. split; [reflexivity | now exists e].
Qed.

(** X5. A run of [decorate] that completes leaves the block in one of the
    four terminal states, never in the loading state: the fixed
    configuration message exactly when the [sku] is missing or empty, and
    otherwise the not-found message, the error message or a rendered
    container. *)
Theorem decorate_terminal_state P env b b' t :
  decorate P env b = (Normal tt, b', t) ->
  (render_state b' = Some ConfigError \/ render_state b' = Some NotFound \/
   render_state b' = Some FetchError \/ render_state b' = Some Rendered) /\
  (render_state b' = Some ConfigError <->
   readBlockConfig env b !! "sku" = None \/ readBlockConfig env b !! "sku" = Some "").
Proof.
  intros Hrun.
  destruct (decorate_cases P env b) as [[S H] | [(sku & _ & _ & _ & H) | H]].
  - rewrite H in Hrun. injection Hrun as <- _. split; [now left |]. now split.
  - rewrite H in Hrun. discriminate Hrun.
  - destruct H as (sku & product & tf & S & Hne & _ & _ & H).
    rewrite H in Hrun. injection Hrun as <- _.
    assert (forall s : Prop, readBlockConfig env b !! "sku" = None \/
                             readBlockConfig env b !! "sku" = Some "" -> s) as Absurd.
    { intros s [E | E]; rewrite S in E; [discriminate E | congruence]. }
    destruct (guarded_outcome_cases P env
                (default default_title (readBlockConfig env b !! "title")) product)
      as [(_ & ->) | [(_ & e & ->) | (_ & kids & ->)]]; cbn.
    + split; [right; now left |]. split; [discriminate | apply Absurd].
    + split; [right; right; now left |]. split; [discriminate | apply Absurd].
    + split; [right; right; now right |]. split; [discriminate | apply Absurd].
Qed.

Lemma decorate_terminal_state_witness :
  render_state (snd (fst (decorate sample_platform empty_catalog_env sample_block)))
  = Some ConfigError
  <-> mug_config !! "sku" = None \/ mug_config !! "sku" = Some "".
Proof.
  exact (proj2 (decorate_terminal_state sample_platform empty_catalog_env sample_block
                  _ _ eq_refl)).
Defined.

(** X6. The only exception that leaves [decorate] is the one
    [classList.add] throws for a theme with whitespace in it: such a run
    has a non-empty [sku], has changed nothing in the block and has sent no
    request. *)
Theorem decorate_only_escape P env b e b' t :
  decorate P env b = (Throw e, b', t) ->
  e = DOMException "InvalidCharacterError" /\
  b' = b /\
  t = [EFetchPlaceholders] /\
  has_whitespace (default default_theme (readBlockConfig env b !! "theme")) = true /\
  exists sku, readBlockConfig env b !! "sku" = Some sku /\ sku <> "".
Proof.
  intros Hrun.
  destruct (decorate_cases P env b) as [[S H] | [(sku & S & Hne & W & H) | H]].
  - rewrite H in Hrun. discriminate Hrun.
  - rewrite H in Hrun. injection Hrun as <- <- <-. repeat split; auto. now exists sku.
  - destruct H as (sku & product & tf & _ & _ & _ & _ & H).
    rewrite H in Hrun. discriminate Hrun.
Qed.

Lemma decorate_only_escape_witness :
  snd (fst (decorate sample_platform two_word_theme_env sample_block)) = sample_block /\
  snd (decorate sample_platform two_word_theme_env sample_block) = [EFetchPlaceholders].
Proof.
  destruct (decorate_only_escape sample_platform two_word_theme_env sample_block
              _ _ _ eq_refl) as (_ & B & T & _).
  split; [exact B | exact T].
Defined.



Lemma themed_incl token b c : In c (classList b) -> In c (themed token b).
Proof.
  unfold themed. destruct (mem_string token (classList b)); [auto |].
  intros H. apply in_or_app. now left.
Qed.

(** Whatever a run does, the class list it leaves is that of the block
    before it or that list with the theme class added. *)
Lemma decorate_classList P env b r b' t :
  decorate P env b = (r, b', t) ->
  classList b' = classList b \/
  classList b'
  = themed ("spotlight--" +:+ default default_theme (readBlockConfig env b !! "theme")) b.
Proof.
  intros Hrun.
  destruct (decorate_cases P env b) as [[S H] | [(sku & S & Hne & W & H) | H]].
  - rewrite H in Hrun. injection Hrun as _ <- _. now left.
  - rewrite H in Hrun. injection Hrun as _ <- _. now left.
  - destruct H as (sku & product & tf & _ & _ & _ & _ & H).
    rewrite H in Hrun. injection Hrun as _ <- _. now right.
Qed.

(** X8. [decorate] never removes a class from the block and adds at most
    one, the theme class, at the end of the list. *)
Theorem decorate_keeps_classes P env b r b' t :
  decorate P env b = (r, b', t) ->
  (forall c, In c (classList b) -> In c (classList b')) /\
  (classList b' = classList b \/
   classList b'
   = classList b
       ++ ["spotlight--" +:+ default default_theme (readBlockConfig env b !! "theme")]).
Proof.
  intros Hrun. destruct (decorate_classList P env b r b' t Hrun) as [-> | ->].
  - split; [auto | now left].
  - split; [intros c; apply themed_incl |].
    unfold themed. destruct (mem_string _ _); [now left | now right].
Qed.

Lemma decorate_keeps_classes_witness :
  classList (snd (fst (decorate sample_platform mug_env sample_block)))
  = classList sample_block \/
  classList (snd (fst (decorate sample_platform mug_env sample_block)))
  = classList sample_block ++ ["spotlight--dark"].
Proof.
  exact (proj2 (decorate_keeps_classes sample_platform mug_env sample_block
                  _ _ _ eq_refl)).
Defined.

(** X9. A theme class, once applied, survives every later decoration of
    the block, whatever configuration and collaborators the later run
    has: decorating again with another theme leaves both theme classes on
    the block. *)
Theorem decorate_theme_class_survives P env b sku b1 t1 P' env' r2 b2 t2 :
  readBlockConfig env b !! "sku" = Some sku -> sku <> "" ->
  decorate P env b = (Normal tt, b1, t1) ->
  decorate P' env' b1 = (r2, b2, t2) ->
  In ("spotlight--" +:+ default default_theme (readBlockConfig env b !! "theme"))
     (classList b2).
Proof.
  intros S Hne H1 H2.
  pose proof (decorate_theme P env b sku _ _ _ S Hne H1) as T. cbn zeta in T.
  destruct (has_whitespace _); destruct T as [T C]; [discriminate T |].
  destruct (decorate_classList P' env' b1 r2 b2 t2 H2) as [-> | ->].
  - rewrite C. apply themed_In.
  - apply themed_incl. rewrite C. apply themed_In.
Qed.

Lemma decorate_theme_class_survives_witness :
  In "spotlight--dark"
     (classList
        (snd (fst (decorate sample_platform neon_env
                     (snd (fst (decorate sample_platform mug_env sample_block))))))).
Proof.
  assert ("24-MB01" <> "") as Hne by discriminate.
  exact (decorate_theme_class_survives sample_platform mug_env sample_block "24-MB01"
           _ _ sample_platform neon_env _ _ _ eq_refl Hne eq_refl eq_refl).
Defined.

(** X10. A transport failure is shown as "Product not found", not as
    "Error loading product": when the request is rejected or the body
    fails to parse, the fetcher logs the error and returns [null], so a
    run past validation ends in the NotFound state with the theme class
    applied. *)
Theorem decorate_transport_failure_is_not_found P env b sku e :
  readBlockConfig env b !! "sku" = Some sku -> sku <> "" ->
  has_whitespace (default default_theme (readBlockConfig env b !! "theme")) = false ->
  fetch env (product_request env sku) = Rejects e \/
  fetch env (product_request env sku) = Responds (JsonFails e) ->
  exists b',
    decorate P env b
    = (Normal tt, b',
       [EFetchPlaceholders; EFetch (product_request env sku);
        EConsoleError fetch_error_msg e]) /\
    render_state b' = Some NotFound /\
    In ("spotlight--" +:+ default default_theme (readBlockConfig env b !! "theme"))
       (classList b').
Proof.
  intros S Hne W H.
  assert (forall b0, fetchProductData env sku b0
                     = (Normal JNull, b0,
                        [EFetch (product_request env sku);
                         EConsoleError fetch_error_msg e])) as F.
  { intros b0. destruct H as [H | H].
    - now apply fetchProductData_rejected.
    - now apply fetchProductData_unparsable. }
  eexists. split.
  - rewrite (decorate_fetched P env b sku S Hne JNull _ W F). reflexivity.
  - split; [reflexivity | apply themed_In].
Qed.

Lemma decorate_transport_failure_witness :
  render_state
    (snd (fst (decorate sample_platform (sample_env mug_config offline) sample_block)))
  = Some NotFound.
Proof.
  assert ("24-MB01" <> "") as Hne by discriminate.
  destruct (decorate_transport_failure_is_not_found sample_platform
              (sample_env mug_config offline) sample_block "24-MB01"
              (HostError (JStr "Failed to fetch")) eq_refl Hne eq_refl
              (or_introl eq_refl)) as (b' & R & S & _).
  rewrite R. exact S.
Defined.

(** X11. A run that completes shows "Error loading product" exactly when
    it logged an error under the block's own message: every such display
    is backed by a log entry, and errors of the fetcher, which are logged
    under the fetcher's message, never lead to it. *)
Theorem decorate_fetch_error_iff_logged P env b b' t :
  decorate P env b = (Normal tt, b', t) ->
  render_state b' = Some FetchError <-> exists e, In (block_error_msg, e) (logged t).
Proof.
  intros Hrun.
  destruct (decorate_cases P env b) as [[S H] | [(sku & _ & _ & _ & H) | H]].
  - rewrite H in Hrun. injection Hrun as <- <-. split; [discriminate |].
    intros (e & []).
  - rewrite H in Hrun. discriminate Hrun.
  - destruct H as (sku & product & tf & _ & _ & _ & F & H).
    rewrite H in Hrun. injection Hrun as <- <-.
    assert (forall e, ~ In (block_error_msg, e) (logged tf)) as Ntf.
    { intros e0.
      destruct (fetchProductData_trace_cases _ _ _ _ _ (F b)) as [-> | (_ & e1 & ->)].
      - intros [].
      - intros [E | []]. discriminate E. }
    cbn [logged flat_map app]. fold (logged (tf ++ snd (guarded_outcome P env
      (default default_title (readBlockConfig env b !! "title")) product))).
    rewrite logged_app.
    destruct (guarded_outcome_cases P env
                (default default_title (readBlockConfig env b !! "title")) product)
      as [(_ & ->) | [(_ & e & ->) | (_ & kids & ->)]]; cbn [fst snd childNodes].
    + split; [discriminate |]. intros (e & I). rewrite app_nil_r in I.
      now destruct (Ntf e).
    + split; [| reflexivity]. intros _. exists e. apply in_or_app. right. now left.
    + split; [discriminate |]. intros (e & I). rewrite app_nil_r in I.
      now destruct (Ntf e).
Qed.

Lemma decorate_fetch_error_iff_logged_witness :
  exists e, In (block_error_msg, e)
               (logged (snd (decorate sample_platform no_final_price_env sample_block))).
Proof.
  exact (proj1 (decorate_fetch_error_iff_logged sample_platform no_final_price_env
                  sample_block _ _ eq_refl) eq_refl).
Defined.

(* ===================================================================== *)
(** * Further properties of the image region                              *)
(* ===================================================================== *)

Lemma get_not_nullish v k : is_nullish v = false -> get v k = Normal (own_property v k).
Proof. intros H. unfold get. now rewrite H. Qed.

(** What [createProductImage] does, read off the first image alone. *)
Lemma createProductImage_eq P product container :
  is_nullish product = false ->
  createProductImage P product container
  = if ToBoolean (get_opt (first_image product) "url") then
      cbind (ToString P (own_property (first_image product) "url")) (fun src =>
      cbind (ToString P (js_or (own_property (first_image product) "label")
                               (own_property product "name"))) (fun alt =>
      Normal (appendChild container
                (Elem "div" "spotlight__image-container" [] [image_element src alt]))))
    else
      Normal (appendChild container
                (Elem "div" "spotlight__image-container" [] [image_placeholder])).
Proof.
  intros N. unfold createProductImage, first_image. unfold get at 1. rewrite N.
  cbn [cbind]. destruct (ToBoolean _) eqn:T; [| reflexivity].
  assert (is_nullish (own_property product "images") = false) as Ni.
  { destruct (is_nullish (own_property product "images")) eqn:E; [| reflexivity].
    unfold get_opt in T. rewrite E in T. discriminate T. }
  assert (is_nullish (get_opt (own_property product "images") "0") = false) as Nf.
  { destruct (is_nullish (get_opt (own_property product "images") "0")) eqn:E;
      [| reflexivity].
    unfold get_opt at 1 in T. rewrite E in T. discriminate T. }
  assert (get_opt (own_property product "images") "0"
          = own_property (own_property product "images") "0") as Ef
      by (unfold get_opt; now rewrite Ni).
  rewrite Ef in *.
  rewrite !(get_not_nullish product) by assumption. cbn [cbind].
  rewrite !(get_not_nullish (own_property product "images")) by assumption. cbn [cbind].
  rewrite !(get_not_nullish (own_property (own_property product "images") "0"))
    by assumption.
  cbn [cbind]. unfold set_attr_val.
  destruct (ToString P (own_property _ "url")) as [src | e]; [| reflexivity].
  cbn [cbind].
  rewrite ?(get_not_nullish (own_property product "images")) by assumption. cbn [cbind].
  rewrite ?(get_not_nullish (own_property (own_property product "images") "0"))
    by assumption.
  cbn [cbind]. destruct (ToString P (js_or _ _)) as [alt | e]; reflexivity.
Qed.

(** X12. Only the first image of a product is ever used: two products
    with the same first image and the same name get the same image
    region, whatever further images, or other fields, they have. *)
Theorem createProductImage_first_image_only P product product' container :
  is_nullish product = false -> is_nullish product' = false ->
  first_image product = first_image product' ->
  own_property product "name" = own_property product' "name" ->
  createProductImage P product container = createProductImage P product' container.
Proof.
  intros N N' F Nm. rewrite !createProductImage_eq by assumption.
  now rewrite F, Nm.
Qed.

Lemma createProductImage_first_image_only_witness :
  createProductImage sample_platform pictured content_wrapper
  = createProductImage sample_platform front_only content_wrapper.
Proof.
  exact (createProductImage_first_image_only sample_platform pictured front_only
           content_wrapper eq_refl eq_refl eq_refl eq_refl).
Defined.

(** X13. When the first image has a truthy [url], the image container
    holds one [img] whose [src] is that url and whose [alt] is the
    image's [label] when that is truthy and the product's [name]
    otherwise. *)
Theorem createProductImage_image P product tag c attrs kids src alt :
  is_nullish product = false ->
  ToBoolean (own_property (first_image product) "url") = true ->
  ToString P (own_property (first_image product) "url") = Normal src ->
  ToString P (if ToBoolean (own_property (first_image product) "label")
              then own_property (first_image product) "label"
              else own_property product "name") = Normal alt ->
  createProductImage P product (Elem tag c attrs kids)
  = Normal (Elem tag c attrs
              (kids ++ [Elem "div" "spotlight__image-container" []
                          [image_element src alt]])).
Proof.
  intros N T S A. rewrite createProductImage_eq by assumption.
  assert (get_opt (first_image product) "url" = own_property (first_image product) "url")
    as ->.
  { unfold get_opt. destruct (is_nullish (first_image product)) eqn:E; [| reflexivity].
    destruct (first_image product); try discriminate E; discriminate T. }
  rewrite T, S. cbn [cbind]. unfold js_or. now rewrite A.
Qed.

Lemma createProductImage_image_witness :
  createProductImage sample_platform pictured content_wrapper
  = Normal (Elem "div" "spotlight__content" []
              [Elem "div" "spotlight__image-container" []
                 [image_element "/media/tote.jpg" "Tote"]]).
Proof.
  exact (createProductImage_image sample_platform pictured "div" "spotlight__content"
           [] [] "/media/tote.jpg" "Tote" eq_refl eq_refl eq_refl eq_refl).
Defined.

(** X14. An image without a truthy [label] on a product without a [name]
    gets the alternative text "undefined": the fallback value is
    converted to text as it is. *)
Theorem createProductImage_alt_undefined P product tag c attrs kids src :
  is_nullish product = false ->
  ToBoolean (own_property (first_image product) "url") = true ->
  ToString P (own_property (first_image product) "url") = Normal src ->
  ToBoolean (own_property (first_image product) "label") = false ->
  own_property product "name" = JUndefined ->
  createProductImage P product (Elem tag c attrs kids)
  = Normal (Elem tag c attrs
              (kids ++ [Elem "div" "spotlight__image-container" []
                          [image_element src "undefined"]])).
Proof.
  intros N T S L Nm. apply createProductImage_image; auto.
  now rewrite L, Nm.
Qed.

Lemma createProductImage_alt_undefined_witness :
  createProductImage sample_platform nameless content_wrapper
  = Normal (Elem "div" "spotlight__content" []
              [Elem "div" "spotlight__image-container" []
                 [image_element "/media/tote.jpg" "undefined"]]).
Proof.
  exact (createProductImage_alt_undefined sample_platform nameless "div"
           "spotlight__content" [] [] "/media/tote.jpg"
           eq_refl eq_refl eq_refl eq_refl eq_refl).
Defined.

(** X15. A product without a usable first image (no [images], an empty
    list, a first entry without [url] or with an empty one) always gets
    the fixed "No Image Available" placeholder and no [img]; building it
    cannot throw. *)
Theorem createProductImage_placeholder P product tag c attrs kids :
  is_nullish product = false ->
  ToBoolean (get_opt (first_image product) "url") = false ->
  createProductImage P product (Elem tag c attrs kids)
  = Normal (Elem tag c attrs
              (kids ++ [Elem "div" "spotlight__image-container" [] [image_placeholder]])) /\
  by_tag "img" [Elem "div" "spotlight__image-container" [] [image_placeholder]] = [].
Proof.
  intros N F. rewrite createProductImage_eq by assumption. now rewrite F.
Qed.

Lemma createProductImage_placeholder_witness :
  createProductImage sample_platform mug content_wrapper
  = Normal (Elem "div" "spotlight__content" []
              [Elem "div" "spotlight__image-container" [] [image_placeholder]]).
Proof.
  exact (proj1 (createProductImage_placeholder sample_platform mug "div"
                  "spotlight__content" [] [] eq_refl eq_refl)).
Defined.

(* ===================================================================== *)
(** * Further properties of the info region                               *)
(* ===================================================================== *)

(** X16. Without pricing data (no [price_range], no [minimum_price] or a
    falsy one) the price region is built all the same and is empty: the
    price container with one final-price element that has no text and no
    original price. *)
Theorem createProductInfo_price_absent P product :
  is_nullish product = false ->
  ToBoolean (priceData_of product) = false ->
  createProductInfo_price P product
  = Normal (Elem "div" "spotlight__price-container" []
              [Elem "span" "spotlight__price" [] []]).
Proof.
  intros N F. unfold createProductInfo_price. rewrite (get_not_nullish _ _ N).
  cbn [cbind]. fold (priceData_of product). now rewrite F.
Qed.

Lemma createProductInfo_price_absent_witness :
  createProductInfo_price sample_platform pictured
  = Normal (Elem "div" "spotlight__price-container" []
              [Elem "span" "spotlight__price" [] []]).
Proof.
  exact (createProductInfo_price_absent sample_platform pictured eq_refl eq_refl).
Defined.

(** X17. Pricing data needs its [regular_price] even when there is no
    discount to show: with [minimum_price] present and [regular_price]
    missing, the price part throws whatever the final price is, and with
    it the whole view. *)
Theorem createProductInfo_price_needs_regular P product :
  ToBoolean (priceData_of product) = true ->
  is_nullish (own_property (priceData_of product) "regular_price") = true ->
  (exists e, createProductInfo_price P product = Throw e) /\
  (forall env title labels, exists e, decorate_container P env title product labels = Throw e).
Proof.
  intros T R. pose proof (priceData_truthy_product _ T) as Tp.
  assert (exists e, createProductInfo_price P product = Throw e) as [e E].
  { unfold createProductInfo_price. rewrite (get_truthy _ _ Tp). cbn [cbind].
    fold (priceData_of product). rewrite T.
    rewrite !(get_truthy _ "final_price" T). cbn [cbind].
    destruct (get (own_property _ "final_price") "currency") as [cur | e]; cbn [cbind];
      [| now eexists].
    destruct (get (own_property _ "final_price") "value") as [fv | e]; cbn [cbind];
      [| now eexists].
    rewrite (get_truthy _ "regular_price" T). cbn [cbind].
    unfold get at 1. rewrite R. cbn [cbind]. now eexists. }
  split; [now exists e |].
  intros env title labels. rewrite decorate_container_eq.
  destruct (createProductImage _ _ _) as [c1 | e1]; cbn [cbind]; [| now eexists].
  unfold createProductInfo.
  destruct (get product "name") as [nm | e1]; cbn [cbind]; [| now eexists].
  destruct (set_textContent P _ nm) as [el | e1]; cbn [cbind]; [| now eexists].
  rewrite E. cbn [cbind]. now eexists.
Qed.

Lemma createProductInfo_price_needs_regular_witness :
  exists e, createProductInfo_price sample_platform no_regular_price = Throw e.
Proof.
  exact (proj1 (createProductInfo_price_needs_regular sample_platform no_regular_price
                  eq_refl eq_refl)).
Defined.

(** X18. The original price is shown only under a discount: for
    well-formed pricing data whose final value is not below the regular
    one, in particular when it is above it, the price container holds the
    final price alone. *)
Theorem createProductInfo_price_no_discount P product cur c f r :
  read_path product final_price_currency_path = Some cur ->
  read_path product final_price_value_path = Some (JNum (NFin f)) ->
  read_path product regular_price_value_path = Some (JNum (NFin r)) ->
  ToString P cur = Normal c ->
  (Qabs f < inject_Z (10 ^ 21))%Q ->
  (r <= f)%Q ->
  createProductInfo_price P product
  = Normal (Elem "div" "spotlight__price-container" [] [price_element c f]).
Proof.
  intros Hc Hf Hr Hs Bf L.
  rewrite (createProductInfo_price_wellformed P product cur c f r Hc Hf Hr Hs Bf).
  - apply Qle_bool_iff in L. now rewrite L.
  - intros Lt. exfalso. exact (Qlt_not_le _ _ Lt L).
Qed.

Lemma below_limit_120 : (Qabs 120 < inject_Z (10 ^ 21))%Q.
Proof. reflexivity. Qed.

Lemma price_100_le_120 : (100 <= 120)%Q.
Proof. discriminate. Qed.

Lemma createProductInfo_price_no_discount_witness :
  createProductInfo_price sample_platform surcharged
  = Normal (Elem "div" "spotlight__price-container" []
              [Elem "span" "spotlight__price" [] [Text "USD 120.00"]]).
Proof.
  exact (createProductInfo_price_no_discount sample_platform surcharged (JStr "USD")
           "USD" 120 100 eq_refl eq_refl eq_refl eq_refl below_limit_120
           price_100_le_120).
Defined.

Lemma text_children_textual s : forallb textual (text_children s) = true.
Proof. unfold text_children. now destruct (String.eqb s ""). Qed.

Lemma parsed_children_textual s : forallb textual (parsed_children s) = true.
Proof. unfold parsed_children. now destruct (String.eqb s ""). Qed.

Lemma set_textContent_detail P tag c attrs kids v el :
  set_textContent P (Elem tag c attrs kids) v = Normal el ->
  exists kids',
    el = Elem tag c attrs kids' /\
    forallb textual kids' = true /\
    (is_nullish v = true -> kids' = []) /\
    (forall s, v = JStr s -> kids' = text_children s).
Proof.
  unfold set_textContent. destruct (is_nullish v) eqn:N.
  - intros [= <-]. exists []. repeat split; auto. intros s ->. discriminate N.
  - destruct (ToString P v) as [s |] eqn:S; [| discriminate]. intros [= <-].
    exists (text_children s). repeat split.
    + apply text_children_textual.
    + discriminate.
    + intros s' ->. cbn in S. now injection S as <-.
Qed.

Lemma set_innerHTML_detail P tag c attrs kids v el :
  set_innerHTML P (Elem tag c attrs kids) v = Normal el ->
  exists kids',
    el = Elem tag c attrs kids' /\
    forallb textual kids' = true /\
    (forall s, v = JStr s -> kids' = parsed_children s).
Proof.
  unfold set_innerHTML.
  assert (cbind (ToString P v)
            (fun s => Normal (set_childNodes (Elem tag c attrs kids) (parsed_children s)))
          = Normal el ->
          exists kids',
            el = Elem tag c attrs kids' /\
            forallb textual kids' = true /\
            (forall s, v = JStr s -> kids' = parsed_children s)) as G.
  { destruct (ToString P v) as [s |] eqn:S; [| discriminate]. intros [= <-].
    exists (parsed_children s). repeat split; [apply parsed_children_textual |].
    intros s' ->. cbn in S. now injection S as <-. }
  destruct v; try exact G. intros [= <-]. exists []. repeat split. discriminate.
Qed.

(** The info region in full: what each of its parts is built from. *)
Lemma createProductInfo_detail P env product labels tag c attrs kids result :
  createProductInfo P env product labels (Elem tag c attrs kids) = Normal result ->
  exists nameKids pc desc uk sk,
    is_nullish product = false /\
    forallb textual nameKids = true /\
    (is_nullish (own_property product "name") = true -> nameKids = []) /\
    (forall s, own_property product "name" = JStr s -> nameKids = text_children s) /\
    createProductInfo_price P product = Normal pc /\
    ((ToBoolean (description_html product) = false /\ desc = [])
     \/ (ToBoolean (description_html product) = true /\
         exists dk,
           forallb textual dk = true /\
           (forall s, description_html product = JStr s -> dk = parsed_children s) /\
           desc = [Elem "div" "spotlight__description" [] dk])) /\
    ToString P (own_property product "url_key") = Normal uk /\
    ToString P (own_property product "sku") = Normal sk /\
    result = Elem tag c attrs
               (kids ++ [Elem "div" "spotlight__info" []
                           ([Elem "h2" "spotlight__name" [] nameKids; pc]
                              ++ desc ++ [actions_element env product labels uk sk])]).
Proof.
  unfold createProductInfo. unfold get at 1.
  destruct (is_nullish product) eqn:N; [discriminate |]. cbn [cbind].
  destruct (set_textContent P _ (own_property product "name")) as [ne |] eqn:S1;
    [| discriminate].
  apply set_textContent_detail in S1 as (nameKids & -> & I1 & Hn0 & Hn1). cbn [cbind].
  destruct (createProductInfo_price P product) as [pc |]; [| discriminate]. cbn [cbind].
  unfold get at 1. rewrite N. cbn [cbind]. fold (description_html product).
  match goal with
  | |- cbind ?m _ = _ -> _ => destruct m as [info1 |] eqn:Hm; [| discriminate]
  end.
  assert (exists desc,
             ((ToBoolean (description_html product) = false /\ desc = [])
              \/ (ToBoolean (description_html product) = true /\
                  exists dk,
                    forallb textual dk = true /\
                    (forall s, description_html product = JStr s ->
                               dk = parsed_children s) /\
                    desc = [Elem "div" "spotlight__description" [] dk])) /\
             info1 = Elem "div" "spotlight__info" []
                       ([Elem "h2" "spotlight__name" [] nameKids; pc] ++ desc))
    as (desc & Hd & ->).
  { revert Hm. destruct (ToBoolean (description_html product)) eqn:T.
    - assert (is_nullish (own_property product "short_description") = false) as Ns.
      { unfold description_html, get_opt in T.
        destruct (is_nullish (own_property product "short_description"));
          [discriminate T | reflexivity]. }
      rewrite (get_not_nullish _ _ N). cbn [cbind].
      rewrite (get_not_nullish _ _ Ns). cbn [cbind].
      replace (own_property (own_property product "short_description") "html")
        with (description_html product)
        by (unfold description_html, get_opt; now rewrite Ns).
      destruct (set_innerHTML P _ (description_html product)) as [de |] eqn:S2;
        [| discriminate].
      apply set_innerHTML_detail in S2 as (dk & -> & I2 & Hk). intros [= <-].
      exists [Elem "div" "spotlight__description" [] dk]. split; [| reflexivity].
      right. split; [reflexivity |]. now exists dk.
    - intros [= <-]. exists []. split; [now left | reflexivity]. }
  cbn [cbind].
  destruct (get labels "Global") as [g |] eqn:G; [| discriminate]. cbn [cbind].
  assert (g = own_property labels "Global") as ->.
  { unfold get in G. destruct (is_nullish labels); [discriminate G | now injection G]. }
  unfold get. rewrite N. cbn [cbind].
  destruct (ToString P (own_property product "url_key")) as [uk |]; [| discriminate].
  cbn [cbind].
  destruct (ToString P (own_property product "sku")) as [sk |]; [| discriminate].
  cbn. intros [= <-].
  exists nameKids, pc, desc, uk, sk. repeat split; auto.
Qed.

Lemma textual_inert l : forallb textual l = true -> forallb inert l = true.
Proof.
  induction l as [| n rest IH]; [reflexivity |]. cbn. intros H.
  apply andb_prop in H as [Hn Hr]. rewrite (IH Hr). now destruct n.
Qed.

Lemma mounted_app l1 l2 : mounted (l1 ++ l2) = mounted l1 ++ mounted l2.
Proof. unfold mounted. now rewrite all_nodes_app, flat_map_app. Qed.

Lemma mounted_Elem tag c attrs kids rest :
  mounted (Elem tag c attrs kids :: rest) = mounted kids ++ mounted rest.
Proof.
  unfold mounted. rewrite all_nodes_cons, descendants_Elem, flat_map_app. reflexivity.
Qed.

Lemma mounted_textual l : forallb textual l = true -> mounted l = [].
Proof.
  induction l as [| n rest IH]; [reflexivity |]. cbn. intros H.
  apply andb_prop in H as [Hn Hr]. specialize (IH Hr).
  destruct n; try discriminate; exact IH.
Qed.

Lemma class_hooks_app l1 l2 : class_hooks (l1 ++ l2) = class_hooks l1 ++ class_hooks l2.
Proof. unfold class_hooks. now rewrite all_nodes_app, flat_map_app. Qed.

Lemma class_hooks_Elem tag c attrs kids rest :
  class_hooks (Elem tag c attrs kids :: rest) = c :: class_hooks kids ++ class_hooks rest.
Proof.
  unfold class_hooks. rewrite all_nodes_cons, descendants_Elem, flat_map_app. reflexivity.
Qed.

Lemma class_hooks_inert l : forallb inert l = true -> class_hooks l = [].
Proof.
  induction l as [| n rest IH]; [reflexivity |]. cbn. intros H.
  apply andb_prop in H as [Hn Hr]. specialize (IH Hr).
  destruct n; try discriminate; exact IH.
Qed.

(** The price container with its text nodes. *)
Lemma createProductInfo_price_textual P product pc :
  createProductInfo_price P product = Normal pc ->
  exists tk,
    forallb textual tk = true /\
    (pc = Elem "div" "spotlight__price-container" []
            [Elem "span" "spotlight__price" [] tk]
     \/ exists ok,
          forallb textual ok = true /\
          pc = Elem "div" "spotlight__price-container" []
                 [Elem "span" "spotlight__price-original" [] ok;
                  Elem "span" "spotlight__price" [] tk]).
Proof.
  unfold createProductInfo_price.
  destruct (get product "price_range") as [pr |]; [| discriminate]. cbn [cbind].
  destruct (ToBoolean (get_opt pr "minimum_price")).
  2:{ cbn. intros [= <-]. exists []. split; [reflexivity | now left]. }
  destruct (get (get_opt pr "minimum_price") "final_price") as [fp |]; [| discriminate].
  cbn [cbind].
  destruct (get fp "currency") as [cur |]; [| discriminate]. cbn [cbind].
  destruct (get fp "value") as [fv |]; [| discriminate]. cbn [cbind].
  destruct (get (get_opt pr "minimum_price") "regular_price") as [rp |]; [| discriminate].
  cbn [cbind].
  destruct (get rp "value") as [rv |]; [| discriminate]. cbn [cbind].
  destruct (ToString P cur) as [c |]; [| discriminate]. cbn [cbind].
  destruct (call_toFixed P fv 2) as [ft |]; [| discriminate]. cbn [cbind].
  destruct (set_textContent P _ (JStr (c +:+ " " +:+ ft))) as [pe |] eqn:S1; [| discriminate].
  apply set_textContent_detail in S1 as (tk & -> & I1 & _). cbn [cbind].
  destruct (js_lt P fv rv) as [[|] |]; [| | discriminate]; cbn [cbind].
  - destruct (call_toFixed P rv 2) as [rt |]; [| discriminate]. cbn [cbind].
    destruct (set_textContent P _ (JStr (c +:+ " " +:+ rt))) as [oe |] eqn:S2; [| discriminate].
    apply set_textContent_detail in S2 as (ok & -> & I2 & _). cbn.
    intros [= <-]. exists tk. split; [exact I1 |]. right. now exists ok.
  - cbn. intros [= <-]. exists tk. split; [exact I1 | now left].
Qed.

(** The rendered container in full. *)
Lemma decorate_container_detail P env title product labels container :
  decorate_container P env title product labels = Normal container ->
  exists inner nameKids pc desc uk sk,
    is_nullish product = false /\
    ((ToBoolean (get_opt (first_image product) "url") = true /\
      exists src alt, inner = image_element src alt)
     \/ (ToBoolean (get_opt (first_image product) "url") = false /\
         inner = image_placeholder)) /\
    forallb textual nameKids = true /\
    (is_nullish (own_property product "name") = true -> nameKids = []) /\
    (forall s, own_property product "name" = JStr s -> nameKids = text_children s) /\
    createProductInfo_price P product = Normal pc /\
    ((ToBoolean (description_html product) = false /\ desc = [])
     \/ (ToBoolean (description_html product) = true /\
         exists dk,
           forallb textual dk = true /\
           (forall s, description_html product = JStr s -> dk = parsed_children s) /\
           desc = [Elem "div" "spotlight__description" [] dk])) /\
    ToString P (own_property product "url_key") = Normal uk /\
    ToString P (own_property product "sku") = Normal sk /\
    container
    = Elem "div" "spotlight__container" []
        (title_nodes title
           ++ [Elem "div" "spotlight__content" []
                 [Elem "div" "spotlight__image-container" [] [inner];
                  Elem "div" "spotlight__info" []
                    ([Elem "h2" "spotlight__name" [] nameKids; pc]
                       ++ desc ++ [actions_element env product labels uk sk])]]).
Proof.
  rewrite decorate_container_eq.
  destruct (createProductImage _ _ _) as [c1 |] eqn:I; [| discriminate]. cbn [cbind].
  apply createProductImage_shape in I as (inner & -> & Hi).
  destruct (createProductInfo _ _ _ _ _) as [c2 |] eqn:F; [| discriminate]. cbn [cbind].
  apply createProductInfo_detail in F
    as (nameKids & pc & desc & uk & sk & N & Hn & Hn0 & Hn1 & Hp & Hd & Hu & Hs & ->).
  intros [= <-]. exists inner, nameKids, pc, desc, uk, sk. repeat split; auto.
Qed.

Ltac container_cases D :=
  let inner := fresh "inner" in
  let nameKids := fresh "nameKids" in
  let pc := fresh "pc" in
  let desc := fresh "desc" in
  let uk := fresh "uk" in
  let sk := fresh "sk" in
  let tk := fresh "tk" in
  let ok := fresh "ok" in
  let dk := fresh "dk" in
  let src := fresh "src" in
  let alt := fresh "alt" in
  let N := fresh "N" in
  let Hi := fresh "Hi" in
  let Hn := fresh "Hn" in
  let Hn0 := fresh "Hn0" in
  let Hn1 := fresh "Hn1" in
  let Hp := fresh "Hp" in
  let Hd := fresh "Hd" in
  let Hu := fresh "Hu" in
  let Hs := fresh "Hs" in
  let Ht := fresh "Ht" in
  let Ho := fresh "Ho" in
  let Hk := fresh "Hk" in
  let Hk1 := fresh "Hk1" in
  let Ti := fresh "Ti" in
  let Td := fresh "Td" in
  apply decorate_container_detail in D
    as (inner & nameKids & pc & desc & uk & sk
        & N & Hi & Hn & Hn0 & Hn1 & Hp & Hd & Hu & Hs & ->);
  apply createProductInfo_price_textual in Hp as (tk & Ht & Hp);
  pose proof (textual_inert _ Hn);
  pose proof (textual_inert _ Ht);
  destruct Hi as [(Ti & src & alt & ->) | (Ti & ->)];
  destruct Hp as [-> | (ok & Ho & ->)];
  try pose proof (textual_inert _ Ho);
  destruct Hd as [(Td & ->) | (Td & dk & Hk & Hk1 & ->)];
  try pose proof (textual_inert _ Hk).

(** X19. The name heading of a rendered product holds the product's
    [name] as its text, verbatim; a product without a name gets an empty
    heading, not the text "undefined". *)
Theorem rendered_name P env title product labels container :
  decorate_container P env title product labels = Normal container ->
  exists nameKids,
    by_class "spotlight__name" [container] = [Elem "h2" "spotlight__name" [] nameKids] /\
    (is_nullish (own_property product "name") = true -> nameKids = []) /\
    (forall s, own_property product "name" = JStr s -> s <> "" -> nameKids = [Text s]).
Proof.
  intros D. container_cases D; exists nameKids;
    (split; [| split; [exact Hn0 |]]);
    try (intros s E NE; rewrite (Hn1 s E); unfold text_children;
         destruct (String.eqb_spec s ""); [contradiction | reflexivity]);
    unfold title_nodes, image_element, image_placeholder, actions_element;
    destruct (_ && _); by_class_steps; reflexivity.
Qed.

Lemma rendered_name_witness :
  exists nameKids,
    by_class "spotlight__name"
      (childNodes (snd (fst (decorate sample_platform mug_env sample_block))))
    = [Elem "h2" "spotlight__name" [] nameKids] /\
    nameKids = [Text "Test Mug"].
Proof.
  destruct (mug_container sample_platform mug_env) as (w1 & w2 & w3 & D).
  destruct (rendered_name sample_platform mug_env default_title mug
              (JObj (fetchPlaceholders mug_env)) _ D) as (nk & B & _ & T).
  assert ("Test Mug" <> "") as NE by discriminate.
  exists nk. split; [exact B | exact (T "Test Mug" eq_refl NE)].
Defined.

(** X20. The description is rendered exactly when the product's
    [short_description.html] is truthy, and then its markup is assigned
    as it is, without any sanitizing; otherwise there is no description
    element. *)
Theorem rendered_description P env title product labels container :
  decorate_container P env title product labels = Normal container ->
  (ToBoolean (description_html product) = false ->
   by_class "spotlight__description" [container] = []) /\
  (forall html,
      description_html product = JStr html -> html <> "" ->
      by_class "spotlight__description" [container]
      = [Elem "div" "spotlight__description" [] [Markup html]]).
Proof.
  intros D. container_cases D; split;
    try (intros F; rewrite F in Td; discriminate Td);
    try (intros html E NE; rewrite E in Td; cbn in Td;
         destruct (String.eqb_spec html ""); [contradiction | discriminate Td]);
    try (intros html E NE; rewrite (Hk1 html E); unfold parsed_children;
         destruct (String.eqb_spec html ""); [contradiction |]);
    try intros _;
    unfold title_nodes, image_element, image_placeholder, actions_element;
    destruct (_ && _); by_class_steps; reflexivity.
Qed.

Lemma rendered_description_witness :
  by_class "spotlight__description"
    (childNodes (snd (fst (decorate sample_platform described_env sample_block))))
  = [Elem "div" "spotlight__description" [] [Markup "<p>A <b>roomy</b> tote.</p>"]].
Proof.
  assert ("<p>A <b>roomy</b> tote.</p>" <> "") as NE by discriminate.
  exact (proj2 (rendered_description sample_platform described_env default_title
                  described (JObj (fetchPlaceholders described_env)) _ eq_refl)
           _ eq_refl NE).
Defined.

(** The mounted components of a rendered container. *)
Lemma rendered_actions_shape_aux P env title product labels container :
  decorate_container P env title product labels = Normal container ->
  exists url_key sku,
    ToString P (own_property product "url_key") = Normal url_key /\
    ToString P (own_property product "sku") = Normal sku /\
    mounted [container]
    = [add_to_cart_button product labels;
       view_details_button env labels url_key sku;
       wishlist_toggle product].
Proof.
  intros D. container_cases D; exists uk, sk; (split; [exact Hu | split; [exact Hs |]]);
    unfold title_nodes, image_element, image_placeholder, actions_element;
    destruct (_ && _);
    repeat first [ rewrite mounted_app | rewrite mounted_Elem
                 | rewrite mounted_textual by (assumption || reflexivity) ];
    reflexivity.
Qed.

(** X21. A rendered product has exactly three mounted components, in the
    fixed order add-to-cart button, view-details button, wishlist
    toggle.  The buttons read the labels [Global.AddProductToCart] and
    [Global.ViewProduct] and fall back to "Add to Cart" and "View
    Details"; the add-to-cart handler is bound to the product's [sku];
    the link is [rootLink] of "/products/<url_key>/<sku>"; the wishlist
    gets the product's sku, name, final price and first gallery item. *)
Theorem rendered_actions P env title product labels container :
  decorate_container P env title product labels = Normal container ->
  exists url_key sku,
    ToString P (own_property product "url_key") = Normal url_key /\
    ToString P (own_property product "sku") = Normal sku /\
    mounted [container]
    = [add_to_cart_button product labels;
       view_details_button env labels url_key sku;
       wishlist_toggle product].
Proof.
  intros D. container_cases D; exists uk, sk; (split; [exact Hu | split; [exact Hs |]]);
    unfold title_nodes, image_element, image_placeholder, actions_element;
    destruct (_ && _);
    repeat first [ rewrite mounted_app | rewrite mounted_Elem
                 | rewrite mounted_textual by (assumption || reflexivity) ];
    reflexivity.
Qed.

Lemma rendered_actions_witness :
  mounted (childNodes (snd (fst (decorate sample_platform mug_env sample_block))))
  = [add_to_cart_button mug (JObj []);
     view_details_button mug_env (JObj []) "undefined" "24-MB01";
     wishlist_toggle mug].
Proof.
  destruct (mug_container sample_platform mug_env) as (w1 & w2 & w3 & D).
  destruct (rendered_actions sample_platform mug_env default_title mug
              (JObj (fetchPlaceholders mug_env)) _ D) as (uk & sk & U & S & M).
  reflexivity.
Defined.

(** X22. With a label mapping that has no [Global] entry and a product
    that has no [url_key], the buttons read "Add to Cart" and "View
    Details" and the link goes to "/products/undefined/<sku>": the
    missing key is printed as the text "undefined". *)
Theorem rendered_actions_defaults P env title product labels container sku :
  decorate_container P env title product labels = Normal container ->
  is_nullish (own_property labels "Global") = true ->
  own_property product "url_key" = JUndefined ->
  own_property product "sku" = JStr sku ->
  mounted [container]
  = [Button (JStr "Add to Cart") (Some "Cart") (Some (AddToCartClick (JStr sku)))
            None "primary" "large";
     Button (JStr "View Details") None None
            (Some (rootLink env ("/products/undefined/" +:+ sku)))
            "secondary" "large";
     wishlist_toggle product].
Proof.
  intros D G U S.
  destruct (rendered_actions_shape_aux P env title product labels container D)
    as (uk & sk & Hu & Hs & ->).
  rewrite U in Hu. rewrite S in Hs. cbn in Hu, Hs.
  injection Hu as <-. injection Hs as <-.
  unfold add_to_cart_button, view_details_button, get_opt. rewrite G, S. reflexivity.
Qed.

Lemma rendered_actions_defaults_witness :
  mounted (childNodes (snd (fst (decorate sample_platform mug_env sample_block))))
  = [Button (JStr "Add to Cart") (Some "Cart") (Some (AddToCartClick (JStr "24-MB01")))
            None "primary" "large";
     Button (JStr "View Details") None None
            (Some "/products/undefined/24-MB01") "secondary" "large";
     wishlist_toggle mug].
Proof.
  exact (rendered_actions_defaults sample_platform mug_env default_title mug
           (JObj (fetchPlaceholders mug_env)) _ "24-MB01" eq_refl eq_refl eq_refl eq_refl).
Defined.

(** X23. The class hooks of a rendered product come in one fixed document
    order: container, the title when there is one, content, image
    container with the image or the placeholder, info, name, price
    container with the original price only before the final price,
    the description when there is one, then the actions with add-to-cart,
    view-product and wishlist.  No other class is used and none is used
    twice. *)
Theorem rendered_class_hooks P env title product labels container :
  decorate_container P env title product labels = Normal container ->
  exists discounted : bool,
    class_hooks [container]
    = ["spotlight__container"]
        ++ (if negb (String.eqb title "") && negb (String.eqb title default_title)
            then ["spotlight__title"] else [])
        ++ ["spotlight__content"; "spotlight__image-container";
            if ToBoolean (get_opt (first_image product) "url")
            then "spotlight__image" else "spotlight__image-placeholder";
            "spotlight__info"; "spotlight__name"; "spotlight__price-container"]
        ++ (if discounted then ["spotlight__price-original"] else [])
        ++ ["spotlight__price"]
        ++ (if ToBoolean (description_html product)
            then ["spotlight__description"] else [])
        ++ ["spotlight__actions"; "spotlight__add-to-cart";
            "spotlight__view-product"; "spotlight__wishlist"].
Proof.
  intros D. container_cases D;
    match goal with
    | |- context [Elem "span" "spotlight__price-original"] => exists true
    | |- _ => exists false
    end;
    rewrite Ti, Td;
    unfold title_nodes, image_element, image_placeholder, actions_element;
    destruct (_ && _);
    repeat first [ rewrite class_hooks_app | rewrite class_hooks_Elem
                 | rewrite class_hooks_inert by (assumption || reflexivity) ];
    reflexivity.
Qed.

Lemma rendered_class_hooks_witness :
  exists discounted : bool,
    class_hooks (childNodes (snd (fst (decorate sample_platform mug_env sample_block))))
    = ["spotlight__container"; "spotlight__content"; "spotlight__image-container";
       "spotlight__image-placeholder"; "spotlight__info"; "spotlight__name";
       "spotlight__price-container"]
        ++ (if discounted then ["spotlight__price-original"] else [])
        ++ ["spotlight__price"; "spotlight__actions"; "spotlight__add-to-cart";
            "spotlight__view-product"; "spotlight__wishlist"].
Proof.
  exact (rendered_class_hooks sample_platform mug_env default_title mug
           (JObj (fetchPlaceholders mug_env)) _ eq_refl).
Defined.

(* ===================================================================== *)
(** * The add-to-cart button after the page is shown                      *)
(* ===================================================================== *)

Lemma number_from_ids kids : forall i c,
  In c (number_from i kids) -> (i <= fst c < i + length kids)%nat.
Proof.
  induction kids as [|k rest IH]; intros i c H; cbn in *; [contradiction|].
  destruct H as [<- | H]; [cbn; lia|]. apply IH in H. lia.
Qed.

Lemma number_from_snd kids : forall i, map snd (number_from i kids) = kids.
Proof. induction kids as [|k rest IH]; intros i; cbn; [reflexivity | now rewrite IH]. Qed.

Lemma remove_node_absent id kids :
  (forall c, In c kids -> fst c <> id) -> remove_node id kids = kids.
Proof.
  unfold remove_node.
  induction kids as [|c rest IH]; intros H; cbn; [reflexivity|].
  destruct (Nat.eqb_spec (fst c) id) as [E|_]; cbn.
  - exfalso. exact (H c (or_introl eq_refl) E).
  - f_equal. apply IH. intros c' Hc'. apply H. now right.
Qed.

Lemma remove_node_app id l1 l2 :
  remove_node id (l1 ++ l2) = remove_node id l1 ++ remove_node id l2.
Proof. unfold remove_node. apply List.filter_app. Qed.

Lemma split_nth_error {A} (l : list A) k x :
  nth_error l k = Some x -> l = firstn k l ++ x :: skipn (S k) l.
Proof.
  revert k; induction l as [|a l IH]; intros [|k] H; cbn in *; try discriminate.
  - now injection H as ->.
  - f_equal. now apply IH.
Qed.

Lemma live_invariant_start tag c attrs kids h :
  live_invariant kids h 0 (live (Elem tag c attrs kids)).
Proof.
  unfold live_invariant, live; cbn. rewrite app_nil_r.
  repeat split; try constructor; lia.
Qed.

Lemma success_message_built P :
  set_textContent P (set_className (createElement "div") "spotlight__success-message")
                  (JStr "Added to cart!")
  = Normal success_message.
Proof. reflexivity. Qed.

Lemma onClick_eq P h s :
  onClick P h s
  = Normal {| live_children := live_children s ++ [(next_id s, success_message)];
              timers := timers s ++ [(next_id s, 3000)];
              cart_calls := cart_calls s ++ [cart_items h];
              next_id := S (next_id s) |}.
Proof. destruct h. reflexivity. Qed.

Lemma live_invariant_click P kids h n s :
  live_invariant kids h n s ->
  exists s', onClick P h s = Normal s' /\ live_invariant kids h (S n) s'
             /\ length (timers s') = S (length (timers s)).
Proof.
  intros (Hc & Hn & Hf & Hl & Hk). rewrite onClick_eq. eexists; split; [reflexivity|].
  split; [|cbn; rewrite length_app; cbn; lia].
  unfold live_invariant; cbn. repeat split.
  - rewrite Hc, map_app, <- app_assoc. reflexivity.
  - rewrite map_app. cbn. apply List.NoDup_app; [assumption | |].
    + constructor; [intros [] | constructor].
    + intros x Hx [<- | []]. apply in_map_iff in Hx as (t & E & Ht).
      rewrite List.Forall_forall in Hf. apply Hf in Ht. lia.
  - apply Forall_app; split.
    + eapply List.Forall_impl; [|exact Hf]. cbn. intros t ?. lia.
    + constructor; [cbn; split; [lia | reflexivity] | constructor].
  - lia.
  - rewrite Hk. symmetry. apply repeat_cons.
Qed.

Lemma live_invariant_timer kids h n s k :
  live_invariant kids h n s ->
  live_invariant kids h n (timer_fires k s)
  /\ length (timers (timer_fires k s))
     = match nth_error (timers s) k with
       | Some _ => pred (length (timers s))
       | None => length (timers s)
       end.
Proof.
  intros (Hc & Hn & Hf & Hl & Hk). unfold timer_fires.
  destruct (nth_error (timers s) k) as [[id d]|] eqn:E;
    [|split; [repeat split; assumption | reflexivity]].
  apply split_nth_error in E.
  set (l1 := firstn k (timers s)) in *. set (l2 := skipn (S k) (timers s)) in *.
  clearbody l1 l2. split; [|cbn; rewrite E, !length_app; cbn; lia].
  unfold live_invariant; cbn. rewrite E in Hc, Hn, Hf. clear E.
  rewrite map_app in Hn. cbn in Hn.
  pose proof (List.NoDup_remove _ _ _ Hn) as [Hn' Hout].
  apply Forall_app in Hf as [Hf1 Hf2]. apply Forall_cons in Hf2 as [[Hid _] Hf2].
  cbn in Hid. repeat split.
  - rewrite Hc, !map_app, !remove_node_app. cbn.
    rewrite Nat.eqb_refl. cbn. f_equal; [|f_equal].
    + apply remove_node_absent. intros c Hin E. apply number_from_ids in Hin. lia.
    + apply remove_node_absent. intros c Hin E. apply in_map_iff in Hin as (t & <- & Ht).
      apply Hout, in_or_app. left. apply in_map_iff. now exists t.
    + apply remove_node_absent. intros c Hin E. apply in_map_iff in Hin as (t & <- & Ht).
      apply Hout, in_or_app. right. apply in_map_iff. now exists t.
  - rewrite map_app. exact Hn'.
  - apply Forall_app; split; assumption.
  - assumption.
  - assumption.
Qed.

Lemma handle_all_invariant P kids h es : forall n s,
  live_invariant kids h n s ->
  exists s', handle_all P h s es = Normal s'
             /\ live_invariant kids h (n + clicks es) s'
             /\ (length (timers s') <= length (timers s) + clicks es)%nat.
Proof.
  induction es as [|e rest IH]; intros n s I.
  - exists s. unfold clicks; cbn. rewrite Nat.add_0_r.
    split; [reflexivity | split; [exact I | lia]].
  - destruct e as [|k]; cbn [handle_all handle].
    + destruct (live_invariant_click P _ _ _ _ I) as (s1 & -> & I1 & L1). cbn [cbind].
      destruct (IH _ _ I1) as (s' & R & I' & L'). exists s'. split; [exact R|].
      unfold clicks in *. cbn [List.filter is_click length].
      rewrite Nat.add_succ_r. split; [exact I' | lia].
    + destruct (live_invariant_timer _ _ _ _ k I) as [I1 L1]. cbn [cbind].
      destruct (IH _ _ I1) as (s' & R & I' & L'). exists s'. split; [exact R|].
      unfold clicks in *. cbn [List.filter is_click]. split; [exact I'|].
      destruct (nth_error (timers s) k); lia.
Qed.

Lemma live_invariant_children kids h n s :
  live_invariant kids h n s ->
  map snd (live_children s) = kids ++ repeat success_message (length (timers s)).
Proof.
  intros (Hc & _). rewrite Hc, map_app, number_from_snd. f_equal.
  clear Hc. induction (timers s) as [|t l IH]; [reflexivity|].
  cbn [map length repeat snd]. f_equal. exact IH.
Qed.

(** X24. Whatever clicks and timer callbacks the add-to-cart container
    has gone through, in whatever order the pending timers fired, the
    handler has not thrown, the container holds its rendered children
    followed by one "Added to cart!" message per timer still pending and
    nothing else, every pending timer has a delay of 3000 ms, and the cart
    service has been called exactly once per click, each time with the one
    item [{sku, quantity: 1}]. *)
Theorem onClick_messages_follow_timers P h tag c attrs kids es :
  exists s,
    handle_all P h (live (Elem tag c attrs kids)) es = Normal s
    /\ map snd (live_children s) = kids ++ repeat success_message (length (timers s))
    /\ Forall (fun t => snd t = 3000) (timers s)
    /\ (length (timers s) <= clicks es)%nat
    /\ cart_calls s = repeat (cart_items h) (clicks es).
Proof.
  destruct (handle_all_invariant P kids h es 0 _ (live_invariant_start tag c attrs kids h))
    as (s & R & I & L).
  exists s. split; [exact R|]. split; [exact (live_invariant_children _ _ _ _ I)|].
  destruct I as (_ & _ & Hf & _ & Hk). repeat split.
  - eapply List.Forall_impl; [|exact Hf]. cbn. intros t [_ H]. exact H.
  - cbn in L. lia.
  - exact Hk.
Qed.

Lemma live_invariant_drain P kids h n : forall m s,
  live_invariant kids h n s -> length (timers s) = m ->
  exists s', handle_all P h s (repeat (TimerFires 0) m) = Normal s'
             /\ live_invariant kids h n s' /\ timers s' = [].
Proof.
  induction m as [|m IH]; intros s I L.
  - exists s. split; [reflexivity | split; [exact I|]].
    destruct (timers s); [reflexivity | discriminate L].
  - cbn [repeat handle_all handle cbind].
    destruct (live_invariant_timer _ _ _ _ 0%nat I) as [I1 L1].
    destruct (timers s) as [|t l] eqn:E; [discriminate L|].
    cbn in L1, L. apply (IH _ I1). lia.
Qed.

(** X25. The messages are transient.  From any state the container can
    reach, letting the pending timers fire, oldest first, removes every
    message: the container holds exactly its rendered children again, no
    timer is left, and no further call reaches the cart service. *)
Theorem onClick_messages_expire P h tag c attrs kids es s :
  handle_all P h (live (Elem tag c attrs kids)) es = Normal s ->
  exists s',
    handle_all P h s (repeat (TimerFires 0) (length (timers s))) = Normal s'
    /\ map snd (live_children s') = kids
    /\ timers s' = []
    /\ cart_calls s' = cart_calls s.
Proof.
  intros R.
  destruct (handle_all_invariant P kids h es 0 _ (live_invariant_start tag c attrs kids h))
    as (s0 & R0 & I & _).
  rewrite R in R0. injection R0 as <-.
  destruct (live_invariant_drain P kids h _ _ s I eq_refl) as (s' & R' & I' & T).
  exists s'. split; [exact R'|]. split; [|split; [exact T|]].
  - rewrite (live_invariant_children _ _ _ _ I'), T. apply app_nil_r.
  - destruct I as (_ & _ & _ & _ & ->). destruct I' as (_ & _ & _ & _ & ->). reflexivity.
Qed.

Lemma onClick_messages_expire_witness :
  exists s',
    handle_all sample_platform (add_to_cart_handler mug)
      {| live_children := [(0%nat, Mounted (add_to_cart_button mug (JObj [])));
                           (2%nat, success_message); (3%nat, success_message)];
         timers := [(2%nat, 3000); (3%nat, 3000)];
         cart_calls := [cart_items (add_to_cart_handler mug);
                        cart_items (add_to_cart_handler mug);
                        cart_items (add_to_cart_handler mug)];
         next_id := 4 |}
      [TimerFires 0; TimerFires 0] = Normal s'
    /\ map snd (live_children s') = [Mounted (add_to_cart_button mug (JObj []))]
    /\ timers s' = []
    /\ cart_calls s' = [cart_items (add_to_cart_handler mug);
                        cart_items (add_to_cart_handler mug);
                        cart_items (add_to_cart_handler mug)].
Proof.
  exact (onClick_messages_expire sample_platform (add_to_cart_handler mug)
           "div" "spotlight__add-to-cart" []
           [Mounted (add_to_cart_button mug (JObj []))]
           [Click; Click; TimerFires 0; Click] _ eq_refl).
Defined.

Lemma rendered_add_to_cart_aux P env title product labels container :
  decorate_container P env title product labels = Normal container ->
  by_class "spotlight__add-to-cart" [container]
  = [Elem "div" "spotlight__add-to-cart" [] [Mounted (add_to_cart_button product labels)]].
Proof.
  intros D. container_cases D;
    unfold title_nodes, image_element, image_placeholder, actions_element;
    destruct (_ && _); by_class_steps; reflexivity.
Qed.

(** X26. On a rendered product the add-to-cart container is the one
    element of class [spotlight__add-to-cart] and holds the button alone;
    whatever clicks and timer callbacks follow, every click hands the cart
    service one unit of the rendered product's own [sku], and the
    container shows the button followed by one message per pending
    timer. *)
Theorem rendered_add_to_cart_clicks P env title product labels container es :
  decorate_container P env title product labels = Normal container ->
  exists addToCartContainer s,
    by_class "spotlight__add-to-cart" [container] = [addToCartContainer]
    /\ handle_all P (add_to_cart_handler product) (live addToCartContainer) es = Normal s
    /\ cart_calls s
       = repeat (JArr [JObj [("sku", own_property product "sku");
                             ("quantity", JNum (NFin 1))]]) (clicks es)
    /\ map snd (live_children s)
       = Mounted (add_to_cart_button product labels)
           :: repeat success_message (length (timers s)).
Proof.
  intros D. apply rendered_add_to_cart_aux in D.
  destruct (handle_all_invariant P [Mounted (add_to_cart_button product labels)]
              (add_to_cart_handler product) es 0 _
              (live_invariant_start "div" "spotlight__add-to-cart" [] _ _))
    as (s & R & I & _).
  eexists; exists s. split; [exact D|]. split; [exact R|]. split.
  - destruct I as (_ & _ & _ & _ & ->). reflexivity.
  - exact (live_invariant_children _ _ _ _ I).
Qed.

Lemma rendered_add_to_cart_clicks_witness :
  exists addToCartContainer s,
    by_class "spotlight__add-to-cart"
      (childNodes (snd (fst (decorate sample_platform mug_env sample_block))))
    = [addToCartContainer]
    /\ handle_all sample_platform (add_to_cart_handler mug) (live addToCartContainer)
         [Click; TimerFires 0; Click] = Normal s
    /\ cart_calls s
       = [JArr [JObj [("sku", JStr "24-MB01"); ("quantity", JNum (NFin 1))]];
          JArr [JObj [("sku", JStr "24-MB01"); ("quantity", JNum (NFin 1))]]]
    /\ map snd (live_children s)
       = Mounted (add_to_cart_button mug (JObj (fetchPlaceholders mug_env)))
           :: repeat success_message (length (timers s)).
Proof.
  exact (rendered_add_to_cart_clicks sample_platform mug_env default_title mug
           (JObj (fetchPlaceholders mug_env)) _ [Click; TimerFires 0; Click] eq_refl).
Defined.
